(** * MCP client: the tool-calling loop of [client.py]

    A shallow embedding of [MCPClient.process_query] and
    [MCPClient.chat_loop].  The Azure OpenAI client, the MCP client session
    and [json.loads] are collaborators of the program: they are taken as
    deterministic state transformers over an abstract outside world, so that
    every theorem holds for every model, every tool server and every parser.
    The string methods [str.strip] and [str.lower] are taken as given in the
    same way: the front end is modelled over whatever they compute.

    Python values are modelled as follows.
    - the [messages] list is a [list Message]; it is the only local object the
      code mutates ([append], [extend]), so it is the local state of the
      frame of [process_query];
    - an exception is a value of [PyExn]; [raise] aborts the computation and
      keeps the state reached so far;
    - every call that leaves the process (model API, tool server, console) is
      logged as an [Event], in program order;
    - [while True] is run with fuel: [OutOfFuel] is the result of a
      computation that has not finished within the given number of
      iterations. *)

From Stdlib Require Import String List ZArith Lia Bool Ascii.
Import ListNotations.
Open Scope string_scope.
Open Scope list_scope.

Set Implicit Arguments.
Set Warnings "-register-all".
#[local] Set Warnings "-notation-overridden".

(** ** Values exchanged with the collaborators *)

(** What [json.loads] produces, and what a tool's [inputSchema] is. *)
Inductive Json : Type :=
| JNull
| JBool (b : bool)
| JNum (z : Z)
| JStr (s : string)
| JArr (items : list Json)
| JObj (fields : list (string * Json)).

(** A raised Python exception: its class name, whether the class derives
    from [Exception] (and not only from [BaseException]), and [str(e)]. *)
Record PyExn : Type := mkExn
  { exn_class : string;
    exn_is_Exception : bool;
    exn_str : string }.

(** [None.attr]: the access the interpreter refuses on a [None] receiver. *)
Definition AttributeError_None (attr : string) : PyExn :=
  mkExn "AttributeError" true
        ("'NoneType' object has no attribute '" ++ attr ++ "'")%string.

(** [l[0]] on an empty list. *)
Definition IndexError_range : PyExn :=
  mkExn "IndexError" true "list index out of range".

(** [str + None]. *)
Definition TypeError_concat : PyExn :=
  mkExn "TypeError" true
        ("can only concatenate str (not "
         ++ String "034" "NoneType" ++ String "034" ") to str")%string.

(** [input()] at the end of standard input. *)
Definition EOFError_input : PyExn :=
  mkExn "EOFError" true "EOF when reading a line".

(** [mcp.types.Tool], as far as the code reads it. *)
Record Tool : Type := mkTool
  { tool_name : string;
    tool_description : option string;
    tool_inputSchema : Json }.

(** The result of [session.list_tools()]. *)
Record ListToolsResult : Type := mkListTools
  { lt_tools : list Tool }.

(** One entry of [available_tools]: the dict
    [{"type": ..., "function": {"name", "description", "parameters"}}]. *)
Record FunctionSchema : Type := mkFunctionSchema
  { fs_name : string;
    fs_description : option string;
    fs_parameters : Json }.

Record ToolParam : Type := mkToolParam
  { tp_type : string;
    tp_function : FunctionSchema }.

(** [tool_call.function] and [tool_call] of a model response. *)
Record FunctionCall : Type := mkFunctionCall
  { fc_name : string;
    fc_arguments : string }.

Record ToolCall : Type := mkToolCall
  { tc_id : string;
    tc_function : FunctionCall }.

(** [response.choices[i].message]: [content] and [tool_calls] are both
    optional in the API. *)
Record ChatCompletionMessage : Type := mkMessage
  { cm_content : option string;
    cm_tool_calls : option (list ToolCall) }.

(** A model response, reduced to the messages of its choices. *)
Record ChatCompletion : Type := mkCompletion
  { choices : list ChatCompletionMessage }.

(** [result.content] of a tool call: a list of content blocks. *)
Inductive ContentBlock : Type :=
| TextContent (text : string)
| ImageContent (data mimeType : string).

Record CallToolResult : Type := mkCallToolResult
  { ctr_content : list ContentBlock;
    ctr_isError : bool }.

(** An element of the [messages] list: the user dict built at line 99, the
    response message object appended at line 136, or the tool dict built at
    lines 151-156. *)
Inductive Message : Type :=
| UserMsg (content : string)
| AssistantMsg (response_message : ChatCompletionMessage)
| ToolMsg (tool_call_id name : string) (content : list ContentBlock).

(** The keyword arguments of [chat.completions.create]. *)
Record ChatRequest : Type := mkRequest
  { rq_model : string;
    rq_max_tokens : Z;
    rq_messages : list Message;
    rq_tools : list ToolParam;
    rq_tool_choice : string }.

(** What the program prints.  The texts are fixed banners of the source; only
    their variable parts are kept. *)
Inductive Output : Type :=
| OutCallingModel
| OutRunningTool (function_name : string) (function_args : Json)
| OutStarted
| OutUsage
| OutPrompt
| OutReply (text : string)
| OutError (msg : string).

(** The calls that leave the process, in program order, each with what came
    back: a value, or the exception raised at the call. *)
Inductive Event : Type :=
| EvListTools (outcome : PyExn + ListToolsResult)
| EvChatCreate (request : ChatRequest) (outcome : PyExn + ChatCompletion)
| EvCallTool (name : string) (arguments : Json)
             (outcome : PyExn + CallToolResult)
| EvPrint (o : Output).

(** ** Python truthiness and indexing *)

(** [not tool_calls] is true for [None] and for the empty list. *)
Definition truthy {A : Type} (o : option (list A)) : bool :=
  match o with
  | Some (_ :: _) => true
  | _ => false
  end.

(** The elements a [for] loop visits; only used on a truthy value. *)
Definition elements {A : Type} (o : option (list A)) : list A :=
  match o with
  | Some l => l
  | None => []
  end.

(** ** The interpreter monad *)

(** How a computation ends. *)
Inductive Res (A : Type) : Type :=
| Ok (a : A)
| Raise (e : PyExn)
| OutOfFuel.
Arguments Raise {A} e.
Arguments OutOfFuel {A}.

(** What one pass through the body of a [while True] decides. *)
Inductive Step (A : Type) : Type :=
| Return (a : A)
| Break
| Next.
Arguments Break {A}.
Arguments Next {A}.

Section Client.

(** The state of everything outside the process: model, tool server. *)
Variable World : Type.

(** [json.loads]: a parsed value, or the exception it raises. *)
Variable json_loads : string -> PyExn + Json.

(** [str.strip] and [str.lower], the methods of the interpreter's strings:
    they are taken as they are, whatever they strip and lower. *)
Variable strip : string -> string.
Variable lower : string -> string.

(** An MCP [ClientSession]. *)
Record ClientSession : Type := mkSession
  { list_tools : World -> (PyExn + ListToolsResult) * World;
    call_tool : string -> Json -> World -> (PyExn + CallToolResult) * World }.

(** [AsyncAzureOpenAI], reduced to [chat.completions.create]. *)
Record AsyncAzureOpenAI : Type := mkOpenAI
  { chat_completions_create :
      ChatRequest -> World -> (PyExn + ChatCompletion) * World }.

(** The fields of [MCPClient] set in [__init__] (lines 21-37) and in
    [connect_to_server]: [session] is [None] until line 88 runs. *)
Record MCPClient : Type := mkClient
  { session : option ClientSession;
    azure_deployment_name : string;
    openai_client : AsyncAzureOpenAI }.

(** The result of running a computation: how it ended, the local state and
    the outside world it left, and the events it produced. *)
Record Out (L A : Type) : Type := mkOut
  { res : Res A;
    locals : L;
    world : World;
    events : list Event }.

Definition Py (L A : Type) : Type := L -> World -> Out L A.

Definition ret {L A : Type} (a : A) : Py L A :=
  fun l w => mkOut (Ok a) l w [].

Definition raise {L A : Type} (e : PyExn) : Py L A :=
  fun l w => mkOut (Raise e) l w [].

Definition out_of_fuel {L A : Type} : Py L A :=
  fun l w => mkOut OutOfFuel l w [].

Definition bind {L A B : Type} (m : Py L A) (k : A -> Py L B) : Py L B :=
  fun l w =>
    match m l w with
    | mkOut (Ok a) l1 w1 t1 =>
        match k a l1 w1 with
        | mkOut r l2 w2 t2 => mkOut r l2 w2 (t1 ++ t2)
        end
    | mkOut (Raise e) l1 w1 t1 => mkOut (Raise e) l1 w1 t1
    | mkOut OutOfFuel l1 w1 t1 => mkOut OutOfFuel l1 w1 t1
    end.

Definition emit {L : Type} (ev : Event) : Py L unit :=
  fun l w => mkOut (Ok tt) l w [ev].

Definition print {L : Type} (o : Output) : Py L unit := emit (EvPrint o).

Definition get_locals {L : Type} : Py L L :=
  fun l w => mkOut (Ok l) l w [].

Definition modify_locals {L : Type} (f : L -> L) : Py L unit :=
  fun l w => mkOut (Ok tt) (f l) w [].

(** A call to a collaborator: it moves the outside world and either
    returns or raises; the call is logged with its outcome. *)
Definition extern {L A : Type} (f : World -> (PyExn + A) * World)
  (log : PyExn + A -> Event) : Py L A :=
  fun l w =>
    match f w with
    | (inr a, w') => mkOut (Ok a) l w' [log (inr a)]
    | (inl e, w') => mkOut (Raise e) l w' [log (inl e)]
    end.

(** A pure library call that may raise. *)
Definition lift_result {L A : Type} (r : PyExn + A) : Py L A :=
  match r with
  | inr a => ret a
  | inl e => raise e
  end.

(** [while True: body].  [Return v] leaves the enclosing function with
    [Some v], [Break] leaves the loop ([None]: the function goes on after the
    loop), [Next] starts the next pass. *)
Fixpoint while_true {L A : Type} (fuel : nat) (body : Py L (Step A))
  : Py L (option A) :=
  match fuel with
  | O => out_of_fuel
  | S fuel' =>
      bind body (fun s =>
        match s with
        | Return a => ret (Some a)
        | Break => ret None
        | Next => while_true fuel' body
        end)
  end.

(** A call: the callee runs on locals of its own, which are dropped when it
    comes back; result, world and events reach the caller. *)
Definition call {L L' A : Type} (callee : Py L' A) (fresh : L') : Py L A :=
  fun l w =>
    match callee fresh w with
    | mkOut r _ w1 t1 => mkOut r l w1 t1
    end.

(** [try: body except Exception as e: handler(e)]: only an exception whose
    class derives from [Exception] is caught. *)
Definition try_except_Exception {L A : Type}
  (body : Py L A) (handler : PyExn -> Py L A) : Py L A :=
  fun l w =>
    match body l w with
    | mkOut (Raise e) l1 w1 t1 =>
        if exn_is_Exception e then
          match handler e l1 w1 with
          | mkOut r l2 w2 t2 => mkOut r l2 w2 (t1 ++ t2)
          end
        else mkOut (Raise e) l1 w1 t1
    | o => o
    end.

Declare Scope py_scope.
Delimit Scope py_scope with py.
Notation "x <- m ;; k" := (bind m (fun x => k))
  (at level 100, m at next level, right associativity) : py_scope.
Notation "m ;;; k" := (bind m (fun _ => k))
  (at level 100, right associativity) : py_scope.
Local Open Scope py_scope.

(** ** [MCPClient.process_query] *)

(** [self.session.list_tools()] and [self.session.call_tool(..)]: the
    attribute access fails on a session that is still [None]. *)
Definition session_list_tools {L : Type} (self : MCPClient)
  : Py L ListToolsResult :=
  match session self with
  | None => raise (AttributeError_None "list_tools")
  | Some s => extern (list_tools s) EvListTools
  end.

Definition session_call_tool {L : Type} (self : MCPClient)
  (name : string) (arguments : Json) : Py L CallToolResult :=
  match session self with
  | None => raise (AttributeError_None "call_tool")
  | Some s => extern (call_tool s name arguments) (EvCallTool name arguments)
  end.

(** Lines 105-112: one OpenAI function tool per MCP tool. *)
Definition openai_tool (tool : Tool) : ToolParam :=
  {| tp_type := "function";
     tp_function :=
       {| fs_name := tool_name tool;
          fs_description := tool_description tool;
          fs_parameters := tool_inputSchema tool |} |}.

(** Lines 118-124. *)
Definition create_request (self : MCPClient) (messages : list Message)
  (available_tools : list ToolParam) : ChatRequest :=
  {| rq_model := azure_deployment_name self;
     rq_max_tokens := 1500;
     rq_messages := messages;
     rq_tools := available_tools;
     rq_tool_choice := "auto" |}.

Definition chat_create {L : Type} (self : MCPClient) (request : ChatRequest)
  : Py L ChatCompletion :=
  extern (chat_completions_create (openai_client self) request)
         (EvChatCreate request).

(** [response.choices[0].message]. *)
Definition first_choice {L : Type} (response : ChatCompletion)
  : Py L ChatCompletionMessage :=
  match choices response with
  | m :: _ => ret m
  | [] => raise IndexError_range
  end.

(** Lines 151-156. *)
Definition tool_message (tool_call : ToolCall) (result : CallToolResult)
  : Message :=
  ToolMsg (tc_id tool_call) (fc_name (tc_function tool_call))
          (ctr_content result).

(** Lines 140-156: the [for] loop, with [tool_results] as accumulator. *)
Fixpoint run_tool_calls {L : Type} (self : MCPClient)
  (tool_calls : list ToolCall) (tool_results : list Message)
  : Py L (list Message) :=
  match tool_calls with
  | [] => ret tool_results
  | tool_call :: rest =>
      let function_name := fc_name (tc_function tool_call) in
      function_args <- lift_result (json_loads (fc_arguments (tc_function tool_call))) ;;
      print (OutRunningTool function_name function_args) ;;;
      result <- session_call_tool self function_name function_args ;;
      run_tool_calls self rest (tool_results ++ [tool_message tool_call result])
  end.

(** Lines 116-159: one pass through the body of the [while True]. *)
Definition loop_body (self : MCPClient) (available_tools : list ToolParam)
  : Py (list Message) (Step (option string)) :=
  print OutCallingModel ;;;
  messages <- get_locals ;;
  response <- chat_create self (create_request self messages available_tools) ;;
  response_message <- first_choice response ;;
  let tool_calls := cm_tool_calls response_message in
  if negb (truthy tool_calls) then
    ret (Return (cm_content response_message))
  else
    modify_locals (fun messages => messages ++ [AssistantMsg response_message]) ;;;
    tool_results <- run_tool_calls self (elements tool_calls) [] ;;
    modify_locals (fun messages => messages ++ tool_results) ;;;
    ret Next.

(** Lines 115-159. *)
Definition tool_loop (fuel : nat) (self : MCPClient)
  (available_tools : list ToolParam)
  : Py (list Message) (option (option string)) :=
  while_true fuel (loop_body self available_tools).

(** The body of [process_query], on the frame that holds [messages].  The
    loop has no [break], so the value of the function is the value of the
    [return] inside it. *)
Definition process_query_frame (fuel : nat) (self : MCPClient) (query : string)
  : Py (list Message) (option string) :=
  modify_locals (fun _ => [UserMsg query]) ;;;
  response <- session_list_tools self ;;
  let available_tools := map openai_tool (lt_tools response) in
  r <- tool_loop fuel self available_tools ;;
  match r with
  | Some content => ret content
  | None => ret None
  end.

(** [self.process_query(query)] as its caller sees it. *)
Definition process_query {L : Type} (fuel : nat) (self : MCPClient)
  (query : string) : Py L (option string) :=
  call (process_query_frame fuel self query) [].

(** The run of [process_query] from a given outside world. *)
Definition run_query (fuel : nat) (self : MCPClient) (query : string)
  (w : World) : Out (list Message) (option string) :=
  process_query_frame fuel self query [] w.

(** ** [MCPClient.chat_loop] *)

(** [input(prompt)]: the prompt is written, then a line is taken from standard
    input, which is the local state of the front end. *)
Definition input : Py (list string) string :=
  print OutPrompt ;;;
  stdin <- get_locals ;;
  match stdin with
  | line :: rest => modify_locals (fun _ => rest) ;;; ret line
  | [] => raise EOFError_input
  end.

(** [banner + response], which needs [response] to be a [str]. *)
Definition concat_reply {L : Type} (response : option string) : Py L string :=
  match response with
  | Some text => ret text
  | None => raise TypeError_concat
  end.

(** Lines 170-183: one pass through the body of the front end's loop. *)
Definition chat_loop_body (pq_fuel : nat) (self : MCPClient)
  : Py (list string) (Step unit) :=
  try_except_Exception
    (line <- input ;;
     let query := strip line in
     if String.eqb (lower query) "quit" then ret Break
     else if String.eqb query "" then ret Next
     else
       response <- process_query pq_fuel self query ;;
       text <- concat_reply response ;;
       print (OutReply text) ;;;
       ret Next)
    (fun e => print (OutError (exn_str e)) ;;; ret Next).

(** Lines 164-183.  [pq_fuel] bounds each call of [process_query], [fuel]
    the passes of the front end's own loop. *)
Definition chat_loop (fuel pq_fuel : nat) (self : MCPClient)
  : Py (list string) unit :=
  print OutStarted ;;;
  print OutUsage ;;;
  while_true fuel (chat_loop_body pq_fuel self) ;;;
  ret tt.

(** ** Reading the event log *)

(** The requests sent to the model API. *)
Fixpoint chat_requests (t : list Event) : list ChatRequest :=
  match t with
  | EvChatCreate request _ :: t' => request :: chat_requests t'
  | _ :: t' => chat_requests t'
  | [] => []
  end.

(** The tool invocations sent to the tool server. *)
Fixpoint tool_invocations (t : list Event) : list (string * Json) :=
  match t with
  | EvCallTool name arguments _ :: t' =>
      (name, arguments) :: tool_invocations t'
  | _ :: t' => tool_invocations t'
  | [] => []
  end.

(** What the tool server answered, call by call. *)
Fixpoint tool_outcomes (t : list Event) : list (PyExn + CallToolResult) :=
  match t with
  | EvCallTool _ _ outcome :: t' => outcome :: tool_outcomes t'
  | _ :: t' => tool_outcomes t'
  | [] => []
  end.

(** The number of [list_tools] calls. *)
Fixpoint list_tools_calls (t : list Event) : nat :=
  match t with
  | EvListTools _ :: t' => S (list_tools_calls t')
  | _ :: t' => list_tools_calls t'
  | [] => O
  end.


Definition is_tool_msg (m : Message) : bool :=
  match m with
  | ToolMsg _ _ _ => true
  | _ => false
  end.

(** The tool-result turns for calls [cs] answered by results [rs]. *)
Definition tool_messages (cs : list ToolCall) (rs : list CallToolResult)
  : list Message :=
  map (fun p => tool_message (fst p) (snd p)) (combine cs rs).

(** [l1] is an initial segment of [l2]. *)
Definition prefix {A : Type} (l1 l2 : list A) : Prop :=
  exists ext, l2 = l1 ++ ext.

(** The answer a model response carries when it asks for no tool: the
    [content] of the first choice. *)
Definition final_answer (ev : Event) : option (option string) :=
  match ev with
  | EvChatCreate _ (inr response) =>
      match choices response with
      | m :: _ => if truthy (cm_tool_calls m) then None else Some (cm_content m)
      | [] => None
      end
  | _ => None
  end.

(** The exception a call to a collaborator came back with, if it did. *)
Definition failure_of (ev : Event) : option PyExn :=
  match ev with
  | EvListTools (inl e) => Some e
  | EvChatCreate _ (inl e) => Some e
  | EvCallTool _ _ (inl e) => Some e
  | _ => None
  end.

(** The requests [rqs] carry the successive values of a list that starts as
    [ms], is only ever extended, by two turns or more between one request and
    the next, and ends as [final]. *)
Fixpoint state_chain (ms : list Message) (rqs : list ChatRequest)
  (final : list Message) : Prop :=
  match rqs with
  | [] => final = ms
  | rq :: rest =>
      rq_messages rq = ms
      /\ exists ms', prefix ms ms'
                   /\ (rest = [] \/ length ms + 2 <= length ms')
                   /\ state_chain ms' rest final
  end.

(** The arguments of a model call that do not depend on the conversation. *)
Definition fixed_arguments (model : string) (tools : list ToolParam)
  (rq : ChatRequest) : Prop :=
  rq_model rq = model /\ rq_max_tokens rq = 1500%Z
  /\ rq_tools rq = tools /\ rq_tool_choice rq = "auto".

(** ** Assumptions on the collaborators, for the claims that make some *)

(** Every response the model delivers asks for a tool. *)
Definition always_asks_for_tools (self : MCPClient) : Prop :=
  forall rq w response w',
    chat_completions_create (openai_client self) rq w = (inr response, w') ->
    forall m others,
      choices response = m :: others -> truthy (cm_tool_calls m) = true.

(** No collaborator ever raises: the session is connected and answers every
    call, the model delivers a response with a first choice to every request,
    and the payloads it writes are accepted by the parser. *)
Definition never_fails (self : MCPClient) : Prop :=
  (exists s,
      session self = Some s
      /\ (forall w, exists r w', list_tools s w = (inr r, w'))
      /\ (forall name arguments w,
            exists result w', call_tool s name arguments w = (inr result, w')))
  /\ (forall rq w,
        exists response w' m others,
          chat_completions_create (openai_client self) rq w = (inr response, w')
          /\ choices response = m :: others
          /\ Forall (fun c => exists arguments,
                        json_loads (fc_arguments (tc_function c))
                        = inr arguments)
                    (elements (cm_tool_calls m))).

End Client.

(** ** Stand-ins for [str.strip] and [str.lower]

    Two functions on which the front end can be run: they strip the ASCII
    whitespace and lower the ASCII letters, and leave every other byte
    alone, so that they agree with the methods of Python on lines of ASCII
    characters, which is what the runs below use.  No theorem is about
    them: the theorems hold for whatever [str.strip] and [str.lower] are. *)

Module AsciiStr.

Definition is_space (c : ascii) : bool :=
  let n := nat_of_ascii c in
  (n =? 32)%nat || ((9 <=? n)%nat && (n <=? 13)%nat)
  || ((28 <=? n)%nat && (n <=? 31)%nat).

Fixpoint lstrip (s : string) : string :=
  match s with
  | String c s' => if is_space c then lstrip s' else s
  | EmptyString => EmptyString
  end.

Fixpoint rstrip (s : string) : string :=
  match s with
  | String c s' =>
      match rstrip s' with
      | EmptyString => if is_space c then EmptyString else String c EmptyString
      | r => String c r
      end
  | EmptyString => EmptyString
  end.

Definition strip (s : string) : string := rstrip (lstrip s).

Definition lower_ascii (c : ascii) : ascii :=
  let n := nat_of_ascii c in
  if (65 <=? n)%nat && (n <=? 90)%nat then ascii_of_nat (n + 32) else c.

Fixpoint lower (s : string) : string :=
  match s with
  | String c s' => String (lower_ascii c) (lower s')
  | EmptyString => EmptyString
  end.

End AsciiStr.

(** ** Scripted collaborators

    Deterministic stand-ins for the model and the tool server, on which the
    definitions above can be run.  The outside world is the number of model
    responses delivered so far. *)

Module Demo.

Definition JSONDecodeError : PyExn :=
  mkExn "JSONDecodeError" true "Expecting value: line 1 column 1 (char 0)".

Definition McpError (msg : string) : PyExn := mkExn "McpError" true msg.

(** A parser that knows three payloads and rejects every other one. *)
Definition json_loads (s : string) : PyExn + Json :=
  if String.eqb s "{}" then inr (JObj [])
  else if String.eqb s "[]" then inr (JArr [])
  else if String.eqb s "null" then inr JNull
  else inl JSONDecodeError.

Definition catalog : list Tool :=
  [ mkTool "list_issues" (Some "List the open issues") (JObj []);
    mkTool "create_issue" None (JObj []) ].

(** The server runs [list_issues], reports a failed run of [create_issue] in
    its result, and answers a request for any other tool with an error that
    the session raises. *)
Definition run_tool (name : string) (arguments : Json)
  : PyExn + CallToolResult :=
  if String.eqb name "list_issues" then
    inr (mkCallToolResult [TextContent "count: 3"] false)
  else if String.eqb name "create_issue" then
    inr (mkCallToolResult [TextContent "Validation Failed"] true)
  else inl (McpError "Unknown tool").

Definition server : ClientSession nat :=
  {| list_tools := fun n => (inr (mkListTools catalog), n);
     call_tool := fun name arguments n => (run_tool name arguments, n) |}.

(** A model that gives its [n]-th answer from a script. *)
Definition scripted (script : nat -> PyExn + ChatCompletion)
  : AsyncAzureOpenAI nat :=
  {| chat_completions_create := fun _ n => (script n, S n) |}.

Definition client (script : nat -> PyExn + ChatCompletion) : MCPClient nat :=
  {| session := Some server;
     azure_deployment_name := "gpt-4o";
     openai_client := scripted script |}.

(** A server that runs whatever it is asked for. *)
Definition obliging_server : ClientSession nat :=
  {| list_tools := fun n => (inr (mkListTools catalog), n);
     call_tool := fun name arguments n =>
       (inr (mkCallToolResult [TextContent name] false), n) |}.

Definition obliged_client (script : nat -> PyExn + ChatCompletion)
  : MCPClient nat :=
  {| session := Some obliging_server;
     azure_deployment_name := "gpt-4o";
     openai_client := scripted script |}.

(** The same client before [connect_to_server] has run. *)
Definition unconnected (script : nat -> PyExn + ChatCompletion)
  : MCPClient nat :=
  {| session := None;
     azure_deployment_name := "gpt-4o";
     openai_client := scripted script |}.

Definition says (text : string) : ChatCompletionMessage :=
  mkMessage (Some text) None.

Definition asks (tool_calls : list ToolCall) : ChatCompletionMessage :=
  mkMessage None (Some tool_calls).

Definition text_reply (text : string) : ChatCompletion :=
  mkCompletion [says text].

Definition calls_reply (tool_calls : list ToolCall) : ChatCompletion :=
  mkCompletion [asks tool_calls].

Definition tool_call (id name arguments : string) : ToolCall :=
  mkToolCall id (mkFunctionCall name arguments).

(** The model answers at once. *)
Definition direct (n : nat) : PyExn + ChatCompletion :=
  inr (text_reply "Hello!").

(** The model asks for one tool, then answers. *)
Definition one_round (n : nat) : PyExn + ChatCompletion :=
  match n with
  | O => inr (calls_reply [tool_call "call_1" "list_issues" "{}"])
  | _ => inr (text_reply "There are 3 open issues.")
  end.

(** The model asks for a tool with a payload that is not JSON. *)
Definition bad_payload (n : nat) : PyExn + ChatCompletion :=
  match n with
  | O => inr (calls_reply [tool_call "call_1" "list_issues" "{oops"])
  | _ => inr (text_reply "Done.")
  end.

(** The model asks for a tool whose run fails, and for a tool the server does
    not know. *)
Definition failing_tools (n : nat) : PyExn + ChatCompletion :=
  match n with
  | O => inr (calls_reply [tool_call "call_1" "create_issue" "{}";
                           tool_call "call_2" "delete_repo" "{}"])
  | _ => inr (text_reply "Done.")
  end.

(** The model asks for a tool whose run fails, then answers. *)
Definition failed_run (n : nat) : PyExn + ChatCompletion :=
  match n with
  | O => inr (calls_reply [tool_call "call_1" "create_issue" "{}";
                           tool_call "call_2" "list_issues" "[]"])
  | _ => inr (text_reply "The issue was not created.")
  end.

(** The model asks for a tool on every response. *)
Definition insatiable (n : nat) : PyExn + ChatCompletion :=
  inr (calls_reply [tool_call "call_n" "list_issues" "{}"]).

(** The model API is down. *)
Definition APIConnectionError : PyExn :=
  mkExn "APIConnectionError" true "Connection error.".

Definition api_down (n : nat) : PyExn + ChatCompletion :=
  inl APIConnectionError.

(** The tools as the model API is given them. *)
Definition available_tools : list ToolParam := map openai_tool catalog.

End Demo.

(** ** Conversations the model API accepts *)

(** A sequence of complete rounds: each is an assistant turn that asks for
    one tool or more, followed by the tool-result turns of its calls, one per
    call and in their order. *)
Inductive complete_rounds : list Message -> Prop :=
| rounds_none : complete_rounds []
| rounds_more rounds m cs rs :
    complete_rounds rounds ->
    cm_tool_calls m = Some cs ->
    cs <> [] ->
    length rs = length cs ->
    complete_rounds (rounds ++ AssistantMsg m :: tool_messages cs rs).

(** What every request to the model holds: the user turn of the query,
    then complete rounds. *)
Definition well_formed_conversation (query : string) (ms : list Message)
  : Prop :=
  exists rounds, ms = UserMsg query :: rounds /\ complete_rounds rounds.

(** A line of standard input that ends the session. *)
Definition is_quit (strip lower : string -> string) (line : string)
  : bool :=
  String.eqb (lower (strip line)) "quit".

(** * The rest of [MCPClient]: construction, connection, shutdown

    [__init__], [load_server_config], [connect_to_server], [cleanup] and
    [main] work on the client object itself: they assign its attributes and
    fill its exit stack.  The environment, the constructors of the libraries
    and the contexts they open are collaborators, as the session and the
    model are above. *)

(** ** Python dictionaries, as [Json] objects *)

(** [bool(v)]. *)
Definition json_truthy (v : Json) : bool :=
  match v with
  | JNull => false
  | JBool b => b
  | JNum z => negb (Z.eqb z 0)
  | JStr s => negb (String.eqb s "")
  | JArr items => match items with [] => false | _ => true end
  | JObj fields => match fields with [] => false | _ => true end
  end.

(** [type(v).__name__]. *)
Definition type_name (v : Json) : string :=
  match v with
  | JNull => "NoneType"
  | JBool _ => "bool"
  | JNum _ => "int"
  | JStr _ => "str"
  | JArr _ => "list"
  | JObj _ => "dict"
  end.

(** [obj.attr] on an object of a type that has no such attribute. *)
Definition AttributeError_object (type attr : string) : PyExn :=
  mkExn "AttributeError" true
        ("'" ++ type ++ "' object has no attribute '" ++ attr ++ "'")%string.

Definition ValueError (msg : string) : PyExn := mkExn "ValueError" true msg.

(** The value stored under [key], if any. *)
Fixpoint lookup (key : string) (fields : list (string * Json))
  : option Json :=
  match fields with
  | [] => None
  | (k, v) :: rest => if String.eqb k key then Some v else lookup key rest
  end.

(** [d.get(key, default)]: only a dictionary has the method. *)
Definition dict_get (d : Json) (key : string) (default : Json)
  : PyExn + Json :=
  match d with
  | JObj fields =>
      inr match lookup key fields with
          | Some v => v
          | None => default
          end
  | _ => inl (AttributeError_object (type_name d) "get")
  end.

(** What [os.getenv] gives, as a value of a dictionary. *)
Definition json_of_env (value : option string) : Json :=
  match value with
  | Some s => JStr s
  | None => JNull
  end.

(** The keyword arguments of [StdioServerParameters]. *)
Record StdioServerParameters : Type := mkServerParams
  { sp_command : Json;
    sp_args : Json;
    sp_env : Json }.

Section Bootstrap.

Variable World : Type.

(** The pair of streams a stdio transport gives. *)
Variable Transport : Type.

Variable json_loads : string -> PyExn + Json.
Variable strip : string -> string.
Variable lower : string -> string.

(** An async context the exit stack holds: the transport of a server, or the
    session opened over a transport. *)
Inductive Context : Type :=
| CtxStdio (transport : Transport)
| CtxSession (transport : Transport).

(** The collaborators of the bootstrap code: the environment of the process,
    the constructors of the two libraries, the contexts they open,
    [ClientSession.initialize] and [AsyncExitStack.aclose]. *)
Record Runtime : Type := mkRuntime
  { getenv : string -> option string;
    AsyncAzureOpenAI_new :
      option string -> option string -> option string ->
      PyExn + AsyncAzureOpenAI World;
    StdioServerParameters_check : StdioServerParameters -> option PyExn;
    stdio_client :
      StdioServerParameters -> World -> (PyExn + Transport) * World;
    ClientSession_enter :
      Transport -> World -> (PyExn + ClientSession World) * World;
    session_initialize :
      ClientSession World -> World -> (PyExn + unit) * World;
    exit_stack_aclose : list Context -> World -> (PyExn + unit) * World }.

(** The client object: the attributes [process_query] reads, the exit stack
    (most recent context first), [server_config] and the streams, which are
    attributes the object does not have until they are assigned. *)
Record ClientObj : Type := mkClientObj
  { co_client : MCPClient World;
    exit_stack : list Context;
    server_config : option Json;
    stdio_write : option Transport }.

(** What the bootstrap code does outside the process. *)
Inductive BootEvent : Type :=
| BvStdioClient (server_params : StdioServerParameters)
                (outcome : PyExn + Transport)
| BvClientSession (transport : Transport) (outcome : option PyExn)
| BvInitialize (outcome : option PyExn)
| BvListTools (outcome : PyExn + ListToolsResult)
| BvPrintConnected (names : list string)
| BvAclose (stack : list Context) (outcome : option PyExn)
| BvChat (ev : Event).

Definition failed {A : Type} (outcome : PyExn + A) : option PyExn :=
  match outcome with
  | inl e => Some e
  | inr _ => None
  end.

Record BootOut (A : Type) : Type := mkBoot
  { boot_res : Res A;
    boot_self : ClientObj;
    boot_world : World;
    boot_log : list BootEvent }.

Definition Boot (A : Type) : Type := ClientObj -> World -> BootOut A.

Definition boot_ret {A : Type} (a : A) : Boot A :=
  fun self w => mkBoot (Ok a) self w [].

Definition boot_raise {A : Type} (e : PyExn) : Boot A :=
  fun self w => mkBoot (Raise e) self w [].

Definition boot_bind {A B : Type} (m : Boot A) (k : A -> Boot B) : Boot B :=
  fun self w =>
    match m self w with
    | mkBoot (Ok a) self1 w1 t1 =>
        match k a self1 w1 with
        | mkBoot r self2 w2 t2 => mkBoot r self2 w2 (t1 ++ t2)
        end
    | mkBoot (Raise e) self1 w1 t1 => mkBoot (Raise e) self1 w1 t1
    | mkBoot OutOfFuel self1 w1 t1 => mkBoot OutOfFuel self1 w1 t1
    end.

Definition boot_emit (ev : BootEvent) : Boot unit :=
  fun self w => mkBoot (Ok tt) self w [ev].

Definition boot_self_get : Boot ClientObj :=
  fun self w => mkBoot (Ok self) self w [].

Definition boot_assign (f : ClientObj -> ClientObj) : Boot unit :=
  fun self w => mkBoot (Ok tt) (f self) w [].

Definition boot_lift {A : Type} (r : PyExn + A) : Boot A :=
  match r with
  | inr a => boot_ret a
  | inl e => boot_raise e
  end.

Definition boot_extern {A : Type} (f : World -> (PyExn + A) * World)
  (log : PyExn + A -> BootEvent) : Boot A :=
  fun self w =>
    match f w with
    | (inr a, w') => mkBoot (Ok a) self w' [log (inr a)]
    | (inl e, w') => mkBoot (Raise e) self w' [log (inl e)]
    end.

(** [try: body finally: final].  [final] runs when [body] has ended, however
    it ended; what [final] raises replaces the outcome of [body]. *)
Definition try_finally {A : Type} (body : Boot A) (final : Boot unit)
  : Boot A :=
  fun self w =>
    match body self w with
    | mkBoot OutOfFuel self1 w1 t1 => mkBoot OutOfFuel self1 w1 t1
    | mkBoot r self1 w1 t1 =>
        match final self1 w1 with
        | mkBoot (Ok _) self2 w2 t2 => mkBoot r self2 w2 (t1 ++ t2)
        | mkBoot (Raise e) self2 w2 t2 => mkBoot (Raise e) self2 w2 (t1 ++ t2)
        | mkBoot OutOfFuel self2 w2 t2 => mkBoot OutOfFuel self2 w2 (t1 ++ t2)
        end
    end.

Declare Scope boot_scope.
Delimit Scope boot_scope with boot.
Notation "x <- m ;; k" := (boot_bind m (fun x => k))
  (at level 100, m at next level, right associativity) : boot_scope.
Notation "m ;;; k" := (boot_bind m (fun _ => k))
  (at level 100, right associativity) : boot_scope.
Local Open Scope boot_scope.

(** Assignments to the attributes of [self]. *)
Definition set_session (s : ClientSession World) (self : ClientObj)
  : ClientObj :=
  {| co_client :=
       {| session := Some s;
          azure_deployment_name := azure_deployment_name (co_client self);
          openai_client := openai_client (co_client self) |};
     exit_stack := exit_stack self;
     server_config := server_config self;
     stdio_write := stdio_write self |}.

Definition set_server_config (config : Json) (self : ClientObj) : ClientObj :=
  {| co_client := co_client self;
     exit_stack := exit_stack self;
     server_config := Some config;
     stdio_write := stdio_write self |}.

Definition set_stdio_write (transport : Transport) (self : ClientObj)
  : ClientObj :=
  {| co_client := co_client self;
     exit_stack := exit_stack self;
     server_config := server_config self;
     stdio_write := Some transport |}.

Definition set_exit_stack (stack : list Context) (self : ClientObj)
  : ClientObj :=
  {| co_client := co_client self;
     exit_stack := stack;
     server_config := server_config self;
     stdio_write := stdio_write self |}.

(** ** [MCPClient.__init__] *)

Definition ValueError_deployment : PyExn :=
  ValueError "AZURE_OPENAI_DEPLOYMENT_NAME 環境變數未設定".

(** [not name] for what [os.getenv] gives: unset, or set to nothing. *)
Definition env_falsy (value : option string) : bool :=
  match value with
  | None => true
  | Some s => String.eqb s ""
  end.

(** Lines 21-37: the new object, or the exception of the constructor. *)
Definition init (rt : Runtime) : PyExn + ClientObj :=
  let name := getenv rt "AZURE_OPENAI_DEPLOYMENT_NAME" in
  if env_falsy name then inl ValueError_deployment
  else
    match AsyncAzureOpenAI_new rt (getenv rt "AZURE_OPENAI_API_KEY")
            (getenv rt "AZURE_OPENAI_ENDPOINT")
            (getenv rt "OPENAI_API_VERSION") with
    | inl e => inl e
    | inr client =>
        inr {| co_client :=
                 {| session := None;
                    azure_deployment_name :=
                      match name with Some s => s | None => "" end;
                    openai_client := client |};
               exit_stack := [];
               server_config := None;
               stdio_write := None |}
    end.

(** ** [MCPClient.load_server_config] *)

(** Lines 41-51: the dictionary assigned to [self.server_config]. *)
Definition github_config (rt : Runtime) : Json :=
  JObj [("mcpServers",
         JObj [("github",
                JObj [("command", JStr "npx");
                      ("args",
                       JArr [JStr "-y";
                             JStr "@modelcontextprotocol/server-github"]);
                      ("env",
                       JObj [("GITHUB_PERSONAL_ACCESS_TOKEN",
                              json_of_env
                                (getenv rt "GITHUB_PERSONAL_ACCESS_TOKEN"))])
                ])])].

Definition load_server_config (rt : Runtime) : Boot unit :=
  boot_assign (set_server_config (github_config rt)).

(** ** [MCPClient.connect_to_server] *)

(** [self.server_config], an attribute [__init__] does not assign. *)
Definition get_server_config : Boot Json :=
  self <- boot_self_get ;;
  match server_config self with
  | Some config => boot_ret config
  | None => boot_raise (AttributeError_object "MCPClient" "server_config")
  end.

(** [self.session.attr] *)
Definition get_session (attr : string) : Boot (ClientSession World) :=
  self <- boot_self_get ;;
  match session (co_client self) with
  | Some s => boot_ret s
  | None => boot_raise (AttributeError_None attr)
  end.

(** [self.exit_stack.enter_async_context(cm)]: the context is entered, and
    pushed on the stack when it has been. *)
Definition enter_async_context {A : Type}
  (cm : World -> (PyExn + A) * World) (log : PyExn + A -> BootEvent)
  (context : A -> Context) : Boot A :=
  a <- boot_extern cm log ;;
  boot_assign (fun self => set_exit_stack (context a :: exit_stack self) self) ;;;
  boot_ret a.

(** Lines 53-94. *)
Definition connect_to_server (rt : Runtime) (server_name : string)
  : Boot unit :=
  config <- get_server_config ;;
  (if negb (json_truthy config) then load_server_config rt else boot_ret tt) ;;;
  config <- get_server_config ;;
  servers <- boot_lift (dict_get config "mcpServers" (JObj [])) ;;
  server_info <- boot_lift (dict_get servers server_name JNull) ;;
  if negb (json_truthy server_info) then
    boot_raise
      (ValueError ("No configuration found for server: " ++ server_name)%string)
  else
    command <- boot_lift (dict_get server_info "command" JNull) ;;
    args <- boot_lift (dict_get server_info "args" (JArr [])) ;;
    env <- boot_lift (dict_get server_info "env" JNull) ;;
    let server_params := mkServerParams command args env in
    match StdioServerParameters_check rt server_params with
    | Some e => boot_raise e
    | None =>
        stdio_transport <-
          enter_async_context (stdio_client rt server_params)
            (BvStdioClient server_params)
            CtxStdio ;;
        boot_assign (set_stdio_write stdio_transport) ;;;
        s <- enter_async_context (ClientSession_enter rt stdio_transport)
               (fun outcome => BvClientSession stdio_transport (failed outcome))
               (fun _ => CtxSession stdio_transport) ;;
        boot_assign (set_session s) ;;;
        s <- get_session "initialize" ;;
        boot_extern (session_initialize rt s)
          (fun outcome => BvInitialize (failed outcome)) ;;;
        s <- get_session "list_tools" ;;
        response <- boot_extern (list_tools s) BvListTools ;;
        let tools := lt_tools response in
        boot_emit (BvPrintConnected (map tool_name tools))
    end.

(** ** [MCPClient.cleanup] *)

(** Lines 185-187: [aclose] leaves the contexts of the stack, which is empty
    afterwards whether or not leaving them raised. *)
Definition cleanup (rt : Runtime) : Boot unit :=
  fun self w =>
    let stack := exit_stack self in
    match exit_stack_aclose rt stack w with
    | (inr _, w') =>
        mkBoot (Ok tt) (set_exit_stack [] self) w' [BvAclose stack None]
    | (inl e, w') =>
        mkBoot (Raise e) (set_exit_stack [] self) w' [BvAclose stack (Some e)]
    end.

(** ** [main] *)

(** [client.chat_loop()] on the standard input [stdin]. *)
Definition run_chat_loop (fuel pq_fuel : nat) (stdin : list string)
  : Boot unit :=
  fun self w =>
    match chat_loop json_loads strip lower
          fuel pq_fuel (co_client self) stdin w with
    | mkOut r _ w1 t => mkBoot r self w1 (map BvChat t)
    end.

(** Lines 192-198: the [try] block and its [finally]. *)
Definition main_body (rt : Runtime) (fuel pq_fuel : nat)
  (stdin : list string) : Boot unit :=
  try_finally
    (load_server_config rt ;;;
     connect_to_server rt "github" ;;;
     run_chat_loop fuel pq_fuel stdin)
    (cleanup rt).

(** How [main] ends: its outcome, the client if one was made, the outside
    world and what was done to it. *)
Record MainOut : Type := mkMain
  { main_res : Res unit;
    main_client : option ClientObj;
    main_world : World;
    main_log : list BootEvent }.

(** Lines 189-198. *)
Definition main (rt : Runtime) (fuel pq_fuel : nat) (stdin : list string)
  (w : World) : MainOut :=
  match init rt with
  | inl e => mkMain (Raise e) None w []
  | inr client =>
      match main_body rt fuel pq_fuel stdin client w with
      | mkBoot r self w1 t => mkMain r (Some self) w1 t
      end
  end.

(** ** Reading the log of the bootstrap *)

(** The events of the chat loop within the log. *)
Fixpoint chat_events (t : list BootEvent) : list Event :=
  match t with
  | BvChat ev :: t' => ev :: chat_events t'
  | _ :: t' => chat_events t'
  | [] => []
  end.

(** The stacks [aclose] was called on. *)
Fixpoint closed_stacks (t : list BootEvent) : list (list Context) :=
  match t with
  | BvAclose stack _ :: t' => stack :: closed_stacks t'
  | _ :: t' => closed_stacks t'
  | [] => []
  end.

(** The context an event has put on the exit stack, if it has. *)
Definition context_of (ev : BootEvent) : list Context :=
  match ev with
  | BvStdioClient _ (inr transport) => [CtxStdio transport]
  | BvClientSession transport None => [CtxSession transport]
  | _ => []
  end.

(** The contexts entered in the course of a log, most recent first. *)
Fixpoint contexts_entered (t : list BootEvent) : list Context :=
  match t with
  | [] => []
  | ev :: t' => contexts_entered t' ++ context_of ev
  end.

End Bootstrap.

Arguments BvInitialize {Transport} outcome.
Arguments BvListTools {Transport} outcome.
Arguments BvPrintConnected {Transport} names.
Arguments BvChat {Transport} ev.

(** ** A scripted bootstrap *)

Module DemoBoot.

(** The environment of a configured process. *)
Definition env (name : string) : option string :=
  if String.eqb name "AZURE_OPENAI_DEPLOYMENT_NAME" then Some "gpt-4o"
  else if String.eqb name "AZURE_OPENAI_API_KEY" then Some "secret"
  else if String.eqb name "AZURE_OPENAI_ENDPOINT" then Some "https://example"
  else if String.eqb name "OPENAI_API_VERSION" then Some "2024-02-01"
  else if String.eqb name "GITHUB_PERSONAL_ACCESS_TOKEN" then Some "ghp_x"
  else None.

(** The same environment with a deployment name set to nothing. *)
Definition env_without_deployment (name : string) : option string :=
  if String.eqb name "AZURE_OPENAI_DEPLOYMENT_NAME" then Some ""
  else env name.

Definition ValidationError : PyExn :=
  mkExn "ValidationError" true "Input should be a valid string".

Definition McpTimeout : PyExn :=
  mkExn "McpError" true "Timed out while waiting for response".

Definition BrokenPipe : PyExn :=
  mkExn "BrokenPipeError" true "Broken pipe".

(** A runtime in which the server is process 7; the handshake and the
    shutdown end as given. *)
Definition runtime (getenv : string -> option string)
  (script : nat -> PyExn + ChatCompletion)
  (handshake shutdown : PyExn + unit) : Runtime nat nat :=
  {| getenv := getenv;
     AsyncAzureOpenAI_new := fun _ _ _ => inr (Demo.scripted script);
     StdioServerParameters_check := fun server_params =>
       match sp_command server_params with
       | JStr _ => None
       | _ => Some ValidationError
       end;
     stdio_client := fun _ n => (inr 7, n);
     ClientSession_enter := fun _ n => (inr Demo.server, n);
     session_initialize := fun _ n => (handshake, n);
     exit_stack_aclose := fun _ n => (shutdown, n) |}.

(** A client object as [__init__] leaves it. *)
Definition fresh (script : nat -> PyExn + ChatCompletion)
  : ClientObj nat nat :=
  {| co_client := Demo.unconnected script;
     exit_stack := [];
     server_config := None;
     stdio_write := None |}.

(** A server whose listing of the tools times out. *)
Definition deaf_server : ClientSession nat :=
  {| list_tools := fun n => (inl McpTimeout, n);
     call_tool := fun name arguments n => (Demo.run_tool name arguments, n) |}.

Definition deaf_client (script : nat -> PyExn + ChatCompletion)
  : MCPClient nat :=
  {| session := Some deaf_server;
     azure_deployment_name := "gpt-4o";
     openai_client := Demo.scripted script |}.

(** The model answers with no choice at all. *)
Definition no_choices (n : nat) : PyExn + ChatCompletion :=
  inr (mkCompletion []).

(** The model answers with a message that has neither content nor calls. *)
Definition silent (n : nat) : PyExn + ChatCompletion :=
  inr (mkCompletion [mkMessage None None]).

(** The call to the model is cancelled. *)
Definition CancelledError : PyExn := mkExn "CancelledError" false "".

Definition cancelled (n : nat) : PyExn + ChatCompletion :=
  inl CancelledError.

End DemoBoot.

(** * Properties *)

Unset Implicit Arguments.

Section Facts.

Variable World : Type.
Variable json_loads : string -> PyExn + Json.
Variable strip : string -> string.
Variable lower : string -> string.

Implicit Types (self : MCPClient World) (w : World).
Implicit Types (ms : list Message) (t : list Event).

(** ** The event log of a sequence *)

Lemma chat_requests_app t1 t2 :
  chat_requests (t1 ++ t2) = chat_requests t1 ++ chat_requests t2.
Proof.
  induction t1 as [|ev t1 IH]; simpl; [reflexivity|].
  destruct ev; simpl; rewrite IH; reflexivity.
Qed.

Lemma tool_invocations_app t1 t2 :
  tool_invocations (t1 ++ t2) = tool_invocations t1 ++ tool_invocations t2.
Proof.
  induction t1 as [|ev t1 IH]; simpl; [reflexivity|].
  destruct ev; simpl; rewrite IH; reflexivity.
Qed.

Lemma tool_outcomes_app t1 t2 :
  tool_outcomes (t1 ++ t2) = tool_outcomes t1 ++ tool_outcomes t2.
Proof.
  induction t1 as [|ev t1 IH]; simpl; [reflexivity|].
  destruct ev; simpl; rewrite IH; reflexivity.
Qed.

Lemma list_tools_calls_app t1 t2 :
  list_tools_calls (t1 ++ t2) = list_tools_calls t1 + list_tools_calls t2.
Proof.
  induction t1 as [|ev t1 IH]; simpl; [reflexivity|].
  destruct ev; simpl; rewrite IH; reflexivity.
Qed.

(** ** Prefixes *)

Lemma prefix_refl {A : Type} (l : list A) : prefix l l.
Proof. exists []. now rewrite app_nil_r. Qed.

Lemma prefix_app {A : Type} (l ext : list A) : prefix l (l ++ ext).
Proof. now exists ext. Qed.

Lemma prefix_trans {A : Type} (l1 l2 l3 : list A) :
  prefix l1 l2 -> prefix l2 l3 -> prefix l1 l3.
Proof.
  intros [e1 ->] [e2 ->]. exists (e1 ++ e2). now rewrite app_assoc.
Qed.

Lemma prefix_length {A : Type} (l1 l2 : list A) :
  prefix l1 l2 -> length l1 <= length l2.
Proof. intros [e ->]. rewrite length_app. lia. Qed.

(** ** The [for] loop over the tool calls *)

(** One step of the loop, by the three things that can happen to a call. *)
Lemma run_tool_calls_cons {L : Type} self c cs acc (l : L) w :
  run_tool_calls json_loads self (c :: cs) acc l w =
  match json_loads (fc_arguments (tc_function c)) with
  | inl e => mkOut (Raise e) l w []
  | inr args =>
      let name := fc_name (tc_function c) in
      match session self with
      | None =>
          mkOut (Raise (AttributeError_None "call_tool")) l w
                [EvPrint (OutRunningTool name args)]
      | Some s =>
          match call_tool s name args w with
          | (inl e, w') =>
              mkOut (Raise e) l w'
                    [EvPrint (OutRunningTool name args);
                     EvCallTool name args (inl e)]
          | (inr result, w') =>
              let o := run_tool_calls json_loads self cs
                         (acc ++ [tool_message c result]) l w' in
              mkOut (res o) (locals o) (world o)
                    (EvPrint (OutRunningTool name args)
                     :: EvCallTool name args (inr result) :: events o)
          end
      end
  end.
Proof.
  simpl. unfold bind, lift_result, print, emit, session_call_tool, extern, ret, raise.
  destruct (json_loads _) as [e|args]; simpl; [reflexivity|].
  destruct (session self) as [s|]; simpl; [|reflexivity].
  destruct (call_tool s _ args w) as [[e|result] w']; simpl; [reflexivity|].
  destruct (run_tool_calls json_loads self cs _ l w') as [r l' w'' t].
  reflexivity.
Qed.

(** The loop leaves the locals of its frame alone, sends nothing to the
    model and does not list the tools. *)
Lemma run_tool_calls_frame {L : Type} self cs :
  forall acc (l : L) w,
    let o := run_tool_calls json_loads self cs acc l w in
    locals o = l /\ chat_requests (events o) = []
    /\ list_tools_calls (events o) = 0 /\ res o <> OutOfFuel.
Proof.
  induction cs as [|c cs IH]; intros acc l w.
  - simpl. repeat split. discriminate.
  - cbv zeta. rewrite run_tool_calls_cons.
    destruct (json_loads _) as [e|args]; [simpl; repeat split; discriminate|].
    cbv zeta. destruct (session self) as [s|];
      [|simpl; repeat split; discriminate].
    destruct (call_tool s _ args w) as [[e|result] w'];
      [simpl; repeat split; discriminate|].
    specialize (IH (acc ++ [tool_message c result]) l w').
    simpl. exact IH.
Qed.

(** A loop that completes has called the server once per tool call, in the
    order of the calls, with the parsed payload of each, and has built one
    tool-result turn from each answer. *)
Lemma run_tool_calls_ok {L : Type} self cs :
  forall acc (l : L) w results,
    let o := run_tool_calls json_loads self cs acc l w in
    res o = Ok results ->
    exists rs,
      length rs = length cs
      /\ results = acc ++ tool_messages cs rs
      /\ tool_outcomes (events o) = map inr rs
      /\ map fst (tool_invocations (events o))
         = map (fun c => fc_name (tc_function c)) cs
      /\ map (fun c => json_loads (fc_arguments (tc_function c))) cs
         = map (fun inv => inr (snd inv)) (tool_invocations (events o)).
Proof.
  induction cs as [|c cs IH]; intros acc l w results.
  - simpl. intros [= <-]. exists []. simpl.
    rewrite app_nil_r. repeat split.
  - cbv zeta. rewrite run_tool_calls_cons.
    destruct (json_loads _) as [e|args] eqn:Hparse; [discriminate|].
    cbv zeta. destruct (session self) as [s|]; [|discriminate].
    destruct (call_tool s _ args w) as [[e|result] w']; [discriminate|].
    simpl. intros Hres.
    destruct (IH _ l w' results Hres) as (rs & Hlen & Hresults & Hout & Hnames & Hargs).
    exists (result :: rs). simpl. rewrite Hparse.
    repeat split; try congruence.
    rewrite Hresults, <- app_assoc. reflexivity.
Qed.

(** A loop that raises was stopped by the parser, by the missing session or
    by the server's last answer; it has built no more tool-result turn than
    the server gave answers. *)
Lemma run_tool_calls_raise {L : Type} self cs :
  forall acc (l : L) w e,
    let o := run_tool_calls json_loads self cs acc l w in
    res o = Raise e ->
    (exists c, In c cs /\ json_loads (fc_arguments (tc_function c)) = inl e)
    \/ (session self = None /\ e = AttributeError_None "call_tool")
    \/ (exists outcomes, tool_outcomes (events o) = outcomes ++ [inl e]).
Proof.
  induction cs as [|c cs IH]; intros acc l w e.
  - simpl. discriminate.
  - cbv zeta. rewrite run_tool_calls_cons.
    destruct (json_loads _) as [e'|args] eqn:Hparse.
    { simpl. intros [= ->]. left. exists c. split; [now left|assumption]. }
    cbv zeta. destruct (session self) as [s|].
    2:{ simpl. intros [= <-]. right. left. split; reflexivity. }
    destruct (call_tool s _ args w) as [[e'|result] w'].
    { simpl. intros [= ->]. right. right. exists []. reflexivity. }
    simpl. intros Hres.
    destruct (IH _ l w' e Hres) as [(c' & Hin & Hc')|[Hnone|(outs & Houts)]].
    + left. exists c'. split; [now right|assumption].
    + destruct Hnone as [Hnone _]. discriminate.
    + right. right. exists (inr result :: outs). simpl. now rewrite Houts.
Qed.

(** The loop over a concatenation is the loop over the first part followed by
    the loop over the second, started from what the first has gathered. *)
Lemma run_tool_calls_app {L : Type} self cs1 cs2 :
  forall acc (l : L) w,
    run_tool_calls json_loads self (cs1 ++ cs2) acc l w =
    bind (run_tool_calls json_loads self cs1 acc)
         (fun acc' => run_tool_calls json_loads self cs2 acc') l w.
Proof.
  induction cs1 as [|c cs1 IH]; intros acc l w.
  - simpl. unfold bind, ret.
    destruct (run_tool_calls json_loads self cs2 acc l w); reflexivity.
  - rewrite <- app_comm_cons. unfold bind.
    rewrite !run_tool_calls_cons.
    destruct (json_loads _) as [e|args]; [reflexivity|].
    cbv zeta. destruct (session self) as [s|]; [|reflexivity].
    destruct (call_tool s _ args w) as [[e|result] w']; [reflexivity|].
    rewrite IH. unfold bind.
    destruct (run_tool_calls json_loads self cs1 _ l w') as [r l1 w1 t1].
    destruct r as [acc'|e|]; cbn [res locals world events]; try reflexivity.
    destruct (run_tool_calls json_loads self cs2 acc' l1 w1) as [r l2 w2 t2].
    reflexivity.
Qed.

(** ** One pass through the loop *)

(** The pass, by what the model answers and how the tool calls end. *)
Lemma loop_body_unfold self tools ms w :
  loop_body json_loads self tools ms w =
  let rq := create_request self ms tools in
  match chat_completions_create (openai_client self) rq w with
  | (inl e, w1) =>
      mkOut (Raise e) ms w1 [EvPrint OutCallingModel; EvChatCreate rq (inl e)]
  | (inr response, w1) =>
      let log := [EvPrint OutCallingModel; EvChatCreate rq (inr response)] in
      match choices response with
      | [] => mkOut (Raise IndexError_range) ms w1 log
      | m :: _ =>
          if truthy (cm_tool_calls m) then
            let ms1 := ms ++ [AssistantMsg m] in
            let o := run_tool_calls json_loads self
                       (elements (cm_tool_calls m)) [] ms1 w1 in
            match res o with
            | Ok tool_results =>
                mkOut (Ok Next) (ms1 ++ tool_results) (world o)
                      (log ++ events o)
            | Raise e => mkOut (Raise e) ms1 (world o) (log ++ events o)
            | OutOfFuel => mkOut OutOfFuel ms1 (world o) (log ++ events o)
            end
          else mkOut (Ok (Return (cm_content m))) ms w1 log
      end
  end.
Proof.
  unfold loop_body, bind, print, emit, get_locals, chat_create, extern,
    first_choice, modify_locals, ret, raise.
  cbv zeta. simpl.
  destruct (chat_completions_create _ _ w) as [[e|response] w1]; simpl;
    [reflexivity|].
  destruct (choices response) as [|m rest]; simpl; [reflexivity|].
  destruct (truthy (cm_tool_calls m)); simpl; [|reflexivity].
  pose proof (run_tool_calls_frame self (elements (cm_tool_calls m)) []
                (ms ++ [AssistantMsg m]) w1) as (Hl & _).
  destruct (run_tool_calls json_loads self _ [] _ w1) as [r l' w' t].
  simpl in *. subst l'.
  destruct r; simpl; rewrite ?app_nil_r; reflexivity.
Qed.

(** A [while True], one pass at a time. *)
Lemma while_true_unfold {L A : Type} fuel (body : Py World L (Step A)) l w :
  while_true (S fuel) body l w =
  let o := body l w in
  match res o with
  | Ok (Return v) => mkOut (Ok (Some v)) (locals o) (world o) (events o)
  | Ok Break => mkOut (Ok None) (locals o) (world o) (events o)
  | Ok Next =>
      let o' := while_true fuel body (locals o) (world o) in
      mkOut (res o') (locals o') (world o') (events o ++ events o')
  | Raise e => mkOut (Raise e) (locals o) (world o) (events o)
  | OutOfFuel => mkOut OutOfFuel (locals o) (world o) (events o)
  end.
Proof.
  cbn [while_true]. unfold bind. cbv zeta.
  destruct (body l w) as [r l' w' t]. cbn [res locals world events].
  destruct r as [[v| |]|e|]; cbn [ret res locals world events];
    rewrite ?app_nil_r; try reflexivity.
  destruct (while_true fuel body l' w') as [r2 l2 w2 t2]. reflexivity.
Qed.

Lemma tool_loop_unfold fuel self tools ms w :
  tool_loop json_loads (S fuel) self tools ms w =
  let o := loop_body json_loads self tools ms w in
  match res o with
  | Ok (Return v) => mkOut (Ok (Some v)) (locals o) (world o) (events o)
  | Ok Break => mkOut (Ok None) (locals o) (world o) (events o)
  | Ok Next =>
      let o' := tool_loop json_loads fuel self tools (locals o) (world o) in
      mkOut (res o') (locals o') (world o') (events o ++ events o')
  | Raise e => mkOut (Raise e) (locals o) (world o) (events o)
  | OutOfFuel => mkOut OutOfFuel (locals o) (world o) (events o)
  end.
Proof. unfold tool_loop. apply while_true_unfold. Qed.

(** [process_query], by how the tool listing ends. *)
Lemma run_query_unfold fuel self query w :
  run_query json_loads fuel self query w =
  match session self with
  | None =>
      mkOut (Raise (AttributeError_None "list_tools")) [UserMsg query] w []
  | Some s =>
      match list_tools s w with
      | (inl e, w1) => mkOut (Raise e) [UserMsg query] w1 [EvListTools (inl e)]
      | (inr r, w1) =>
          let o := tool_loop json_loads fuel self
                     (map openai_tool (lt_tools r)) [UserMsg query] w1 in
          mkOut match res o with
                | Ok (Some content) => Ok content
                | Ok None => Ok None
                | Raise e => Raise e
                | OutOfFuel => OutOfFuel
                end
                (locals o) (world o) (EvListTools (inr r) :: events o)
      end
  end.
Proof.
  unfold run_query, process_query_frame, session_list_tools,
    bind, modify_locals, extern, raise, ret.
  destruct (session self) as [s|]; cbn [res locals world events app];
    [|reflexivity].
  destruct (list_tools s w) as [[e|r] w1]; cbn [res locals world events app];
    [reflexivity|].
  destruct (tool_loop json_loads fuel self _ [UserMsg query] w1)
    as [r' l' w' t].
  cbn [res locals world events].
  destruct r' as [[content|]|e|]; cbn [res locals world events app];
    rewrite ?app_nil_r; reflexivity.
Qed.

(** Case analysis on one pass of the loop. *)
Ltac pass_cases self tools ms w :=
  rewrite (loop_body_unfold self tools ms w); cbv zeta;
  let e := fresh "e" in
  let response := fresh "response" in
  let w1 := fresh "w1" in
  let m := fresh "m" in
  let others := fresh "others" in
  let Hcreate := fresh "Hcreate" in
  let Hchoices := fresh "Hchoices" in
  let Htruthy := fresh "Htruthy" in
  destruct (chat_completions_create (openai_client self)
              (create_request self ms tools) w)
    as [[e|response] w1] eqn:Hcreate;
  [ | destruct (choices response) as [|m others] eqn:Hchoices;
      [ | destruct (truthy (cm_tool_calls m)) eqn:Htruthy ] ].

(** A truthy list of tool calls has a first element. *)
Lemma truthy_elements {A : Type} (o : option (list A)) :
  truthy o = true -> 1 <= length (elements o).
Proof. destruct o as [[|a l]|]; simpl; intros; try discriminate; lia. Qed.

Lemma tool_messages_length cs rs :
  length rs = length cs -> length (tool_messages cs rs) = length cs.
Proof.
  intros H. unfold tool_messages.
  rewrite length_map, length_combine. lia.
Qed.

(** A pass ends by a [return], by the start of the next pass or by an
    exception: the loop has no [break], and a pass takes finitely many
    steps. *)
Lemma loop_body_ends self tools ms w :
  let o := loop_body json_loads self tools ms w in
  res o <> Ok Break /\ res o <> OutOfFuel.
Proof.
  cbv zeta. pass_cases self tools ms w; cbn [res]; try (split; discriminate).
  pose proof (run_tool_calls_frame self (elements (cm_tool_calls m)) []
                (ms ++ [AssistantMsg m]) w1) as (_ & _ & _ & Hfuel).
  cbv zeta in Hfuel.
  destruct (res (run_tool_calls json_loads self _ [] _ w1));
    cbn [res]; try (split; discriminate).
  now contradiction Hfuel.
Qed.

(** A pass sends one request to the model, built from the whole of
    [messages] as the pass finds it, and does not list the tools. *)
Lemma loop_body_request self tools ms w :
  let o := loop_body json_loads self tools ms w in
  chat_requests (events o) = [create_request self ms tools]
  /\ list_tools_calls (events o) = 0.
Proof.
  cbv zeta. pass_cases self tools ms w; cbn [events];
    try (split; reflexivity).
  pose proof (run_tool_calls_frame self (elements (cm_tool_calls m)) []
                (ms ++ [AssistantMsg m]) w1) as (_ & Hrq & Hlt & _).
  cbv zeta in Hrq, Hlt.
  destruct (res (run_tool_calls json_loads self _ [] _ w1));
    cbn [events]; rewrite chat_requests_app, list_tools_calls_app, Hrq, Hlt;
    split; reflexivity.
Qed.

(** A pass only ever extends [messages]; a pass that is followed by another
    one has added the assistant turn and one turn or more after it. *)
Lemma loop_body_extends self tools ms w :
  let o := loop_body json_loads self tools ms w in
  prefix ms (locals o)
  /\ (res o = Ok Next -> length ms + 2 <= length (locals o)).
Proof.
  cbv zeta. pass_cases self tools ms w; cbn [res locals];
    try (split; [apply prefix_refl | discriminate]).
  pose proof (run_tool_calls_ok self (elements (cm_tool_calls m)) []
                (ms ++ [AssistantMsg m]) w1) as Hok.
  cbv zeta in Hok.
  destruct (res (run_tool_calls json_loads self _ [] _ w1)) as [results|e|];
    cbn [res locals]; try (split; [apply prefix_app | discriminate]).
  split.
  - rewrite <- app_assoc. apply prefix_app.
  - intros _. destruct (Hok results eq_refl) as (rs & Hlen & -> & _).
    apply truthy_elements in Htruthy.
    rewrite !length_app. cbn [app length]. rewrite tool_messages_length; lia.
Qed.

(** ** The whole loop *)

(** The loop is never left by a [break]. *)
Lemma tool_loop_no_break fuel self tools :
  forall ms w, res (tool_loop json_loads fuel self tools ms w) <> Ok None.
Proof.
  induction fuel as [|fuel IH]; intros ms w.
  - discriminate.
  - rewrite tool_loop_unfold. cbv zeta.
    pose proof (loop_body_ends self tools ms w) as [Hbreak _].
    cbv zeta in Hbreak.
    destruct (res (loop_body json_loads self tools ms w)) as [[v| |]|e|];
      cbn [res]; try discriminate.
    + now contradiction Hbreak.
    + apply IH.
Qed.

(** Every request of the loop has the same fixed arguments, the tools are not
    listed again, and the requests carry the successive states of
    [messages]. *)
Lemma tool_loop_requests fuel self tools :
  forall ms w,
    let o := tool_loop json_loads fuel self tools ms w in
    Forall (fixed_arguments (azure_deployment_name self) tools)
           (chat_requests (events o))
    /\ list_tools_calls (events o) = 0
    /\ state_chain ms (chat_requests (events o)) (locals o).
Proof.
  induction fuel as [|fuel IH]; intros ms w; cbv zeta.
  - cbn. repeat split. constructor.
  - rewrite tool_loop_unfold. cbv zeta.
    pose proof (loop_body_request self tools ms w) as [Hrq Hlt].
    pose proof (loop_body_extends self tools ms w) as [Hpre Hgrow].
    cbv zeta in Hrq, Hlt, Hpre, Hgrow.
    assert (Hfix : fixed_arguments (azure_deployment_name self) tools
                     (create_request self ms tools))
      by (repeat split).
    destruct (res (loop_body json_loads self tools ms w)) as [[v| |]|e|];
      cbn [res locals world events].
    3:{ specialize (IH (locals (loop_body json_loads self tools ms w))
                      (world (loop_body json_loads self tools ms w))).
        cbv zeta in IH. destruct IH as (IHfix & IHlt & IHchain).
        rewrite chat_requests_app, list_tools_calls_app, Hrq, Hlt, IHlt.
        cbn [app]. repeat split.
        - constructor; assumption.
        - eexists. split; [exact Hpre|]. split; [|exact IHchain].
          right. apply Hgrow. reflexivity. }
    all: rewrite Hrq, Hlt; repeat split;
      [ constructor; [assumption|constructor]
      | eexists; split; [exact Hpre|]; split; [now left|reflexivity] ].
Qed.

(** An event that is not a model call carries no answer. *)
Lemma final_answer_model_call t ev v :
  chat_requests t = [] -> In ev t -> final_answer ev <> Some v.
Proof.
  induction t as [|ev' t IH]; simpl; [contradiction|].
  intros Hrq [->|Hin].
  - destruct ev; try discriminate.
  - destruct ev'; try discriminate; now apply IH.
Qed.

(** A pass returns exactly when the response it received asks for no tool,
    and then it returns the [content] of that response. *)
Lemma loop_body_return self tools ms w v :
  let o := loop_body json_loads self tools ms w in
  res o = Ok (Return v)
  <-> exists ev, In ev (events o) /\ final_answer ev = Some v.
Proof.
  cbv zeta. pass_cases self tools ms w; cbn [res events].
  - split; [discriminate|].
    intros (ev & [<-|[<-|[]]] & Hev); discriminate.
  - split; [discriminate|].
    intros (ev & [<-|[<-|[]]] & Hev); [discriminate|].
    cbn in Hev. rewrite Hchoices in Hev. discriminate.
  - pose proof (run_tool_calls_frame self (elements (cm_tool_calls m)) []
                  (ms ++ [AssistantMsg m]) w1) as (_ & Hrq & _).
    cbv zeta in Hrq.
    assert (Hnone : forall ev,
               In ev ([EvPrint OutCallingModel;
                       EvChatCreate (create_request self ms tools)
                                    (inr response)]
                      ++ events (run_tool_calls json_loads self
                                   (elements (cm_tool_calls m)) []
                                   (ms ++ [AssistantMsg m]) w1)) ->
               final_answer ev <> Some v).
    { intros ev Hin. apply in_app_or in Hin.
      destruct Hin as [[<-|[<-|[]]]|Hin]; [discriminate| |].
      - cbn. rewrite Hchoices, Htruthy. discriminate.
      - eapply final_answer_model_call; eassumption. }
    destruct (res (run_tool_calls json_loads self _ [] _ w1));
      cbn [res events]; (split; [discriminate|]);
      intros (ev & Hin & Hev); now apply Hnone in Hin.
  - split.
    + intros [= <-]. eexists. split; [right; left; reflexivity|].
      cbn. now rewrite Hchoices, Htruthy.
    + intros (ev & [<-|[<-|[]]] & Hev); [discriminate|].
      cbn in Hev. rewrite Hchoices, Htruthy in Hev. congruence.
Qed.

(** A pass that returns does so right after the model call, and leaves
    [messages] as it found it. *)
Lemma loop_body_return_last self tools ms w v :
  let o := loop_body json_loads self tools ms w in
  res o = Ok (Return v) ->
  locals o = ms
  /\ exists response,
      events o = [EvPrint OutCallingModel;
                  EvChatCreate (create_request self ms tools) (inr response)]
      /\ final_answer (EvChatCreate (create_request self ms tools)
                                    (inr response)) = Some v.
Proof.
  cbv zeta. pass_cases self tools ms w; cbn [res locals events];
    try discriminate.
  - destruct (res (run_tool_calls json_loads self _ [] _ w1));
      cbn [res]; discriminate.
  - intros [= <-]. split; [reflexivity|]. exists response.
    split; [reflexivity|]. cbn. now rewrite Hchoices, Htruthy.
Qed.

(** The loop returns exactly when a model response asks for no tool. *)
Lemma tool_loop_return fuel self tools :
  forall ms w v,
    let o := tool_loop json_loads fuel self tools ms w in
    res o = Ok (Some v)
    <-> exists ev, In ev (events o) /\ final_answer ev = Some v.
Proof.
  induction fuel as [|fuel IH]; intros ms w v; cbv zeta.
  - cbn. split; [discriminate|]. intros (ev & [] & _).
  - rewrite tool_loop_unfold. cbv zeta.
    pose proof (loop_body_return self tools ms w) as Hpass.
    cbv zeta in Hpass.
    destruct (res (loop_body json_loads self tools ms w))
      as [[v'| |]|e|] eqn:Hres; cbn [res events].
    + split.
      * intros [= <-]. now apply Hpass.
      * intros Hev. apply Hpass in Hev. congruence.
    + split; [discriminate|]. intros Hev. apply Hpass in Hev. discriminate.
    + rewrite IH. split.
      * intros (ev & Hin & Hev). exists ev. split; [|exact Hev].
        apply in_or_app. now right.
      * intros (ev & Hin & Hev). apply in_app_or in Hin.
        destruct Hin as [Hin|Hin]; [|now exists ev].
        assert (Ok Next = Ok (Return v) :> Res (Step (option string)))
          by (apply Hpass; now exists ev).
        discriminate.
    + split; [discriminate|]. intros Hev. apply Hpass in Hev. discriminate.
    + split; [discriminate|]. intros Hev. apply Hpass in Hev. discriminate.
Qed.

(** When the loop returns, the answer is the last thing that happened. *)
Lemma tool_loop_return_last fuel self tools :
  forall ms w v,
    let o := tool_loop json_loads fuel self tools ms w in
    res o = Ok (Some v) ->
    exists t rq response,
      events o = t ++ [EvChatCreate rq (inr response)]
      /\ final_answer (EvChatCreate rq (inr response)) = Some v
      /\ rq_messages rq = locals o.
Proof.
  induction fuel as [|fuel IH]; intros ms w v; cbv zeta.
  - cbn. discriminate.
  - rewrite tool_loop_unfold. cbv zeta.
    pose proof (loop_body_return_last self tools ms w) as Hpass.
    cbv zeta in Hpass.
    destruct (res (loop_body json_loads self tools ms w))
      as [[v'| |]|e|] eqn:Hres; cbn [res locals events]; try discriminate.
    + intros [= <-].
      destruct (Hpass v' eq_refl) as (Hl & response & Hev & Hans).
      exists [EvPrint OutCallingModel], (create_request self ms tools), response.
      rewrite Hev, Hl. repeat split. exact Hans.
    + intros Hret.
      destruct (IH _ _ _ Hret) as (t & rq & response & Hev & Hans & Hl).
      exists (events (loop_body json_loads self tools ms w) ++ t), rq, response.
      rewrite Hev, app_assoc. repeat split; assumption.
Qed.

(** With a model that always asks for tools the loop never returns. *)
Lemma tool_loop_never_returns fuel self tools :
  always_asks_for_tools self ->
  forall ms w v, res (tool_loop json_loads fuel self tools ms w) <> Ok v.
Proof.
  intros Hasks. induction fuel as [|fuel IH]; intros ms w v.
  - discriminate.
  - rewrite tool_loop_unfold. cbv zeta.
    destruct (res (loop_body json_loads self tools ms w))
      as [[v'| |]|e|] eqn:Hres; cbn [res]; try discriminate.
    + exfalso. revert Hres.
      pass_cases self tools ms w; cbn [res]; try discriminate.
      * destruct (res (run_tool_calls json_loads self _ [] _ w1));
          cbn [res]; discriminate.
      * rewrite (Hasks _ _ _ _ Hcreate _ _ Hchoices) in Htruthy.
        discriminate.
    + pose proof (loop_body_ends self tools ms w) as [Hbreak _].
      now contradiction Hbreak.
    + apply IH.
Qed.

(** With collaborators that never raise, every tool call of a turn gets its
    result. *)
Lemma run_tool_calls_total {L : Type} self s cs :
  session self = Some s ->
  (forall name arguments w,
      exists result w', call_tool s name arguments w = (inr result, w')) ->
  Forall (fun c => exists arguments,
              json_loads (fc_arguments (tc_function c)) = inr arguments) cs ->
  forall acc (l : L) w,
    exists results, res (run_tool_calls json_loads self cs acc l w) = Ok results.
Proof.
  intros Hs Hcall Hparse.
  induction Hparse as [|c cs [args Hargs] _ IH]; intros acc l w.
  - now exists acc.
  - rewrite run_tool_calls_cons, Hargs, Hs. cbv zeta.
    destruct (Hcall (fc_name (tc_function c)) args w) as (result & w' & ->).
    cbn [res]. apply IH.
Qed.

(** With a model that always asks for tools and collaborators that never
    raise, the loop makes as many model calls as it is given passes, and is
    still running after the last of them. *)
Lemma tool_loop_unbounded fuel self tools :
  always_asks_for_tools self -> never_fails json_loads self ->
  forall ms w,
    let o := tool_loop json_loads fuel self tools ms w in
    res o = OutOfFuel /\ length (chat_requests (events o)) = fuel.
Proof.
  intros Hasks ((s & Hs & _ & Hcall) & Hmodel).
  induction fuel as [|fuel IH]; intros ms w; cbv zeta.
  - split; reflexivity.
  - rewrite tool_loop_unfold. cbv zeta.
    pose proof (loop_body_request self tools ms w) as [Hrq _].
    cbv zeta in Hrq.
    assert (Hnext : res (loop_body json_loads self tools ms w) = Ok Next).
    { destruct (Hmodel (create_request self ms tools) w)
        as (response & w' & m & others & Hcreate & Hchoices & Hparse).
      rewrite loop_body_unfold. cbv zeta. rewrite Hcreate, Hchoices.
      rewrite (Hasks _ _ _ _ Hcreate _ _ Hchoices).
      destruct (run_tool_calls_total self s (elements (cm_tool_calls m))
                  Hs Hcall Hparse [] (ms ++ [AssistantMsg m]) w')
        as (results & ->).
      reflexivity. }
    rewrite Hnext. cbn [res events].
    specialize (IH (locals (loop_body json_loads self tools ms w))
                   (world (loop_body json_loads self tools ms w))).
    cbv zeta in IH. destruct IH as [IHres IHlen].
    split; [exact IHres|].
    rewrite chat_requests_app, length_app, Hrq, IHlen. reflexivity.
Qed.

(** More fuel does not change a run that has ended. *)
Lemma tool_loop_fuel_mono fuel self tools :
  forall ms w,
    res (tool_loop json_loads fuel self tools ms w) <> OutOfFuel ->
    forall extra,
      tool_loop json_loads (fuel + extra) self tools ms w
      = tool_loop json_loads fuel self tools ms w.
Proof.
  induction fuel as [|fuel IH]; intros ms w Hend extra.
  - now contradiction Hend.
  - revert Hend. cbn [Nat.add]. rewrite !tool_loop_unfold. cbv zeta.
    destruct (res (loop_body json_loads self tools ms w)) as [[v| |]|e|];
      cbn [res]; intros Hend; try reflexivity.
    rewrite IH by exact Hend. reflexivity.
Qed.

(** ** The claims about [process_query] *)

(** The events of [process_query] that can carry an answer are those of its
    loop. *)
Lemma run_query_return fuel self query w v :
  let o := run_query json_loads fuel self query w in
  res o = Ok v <-> exists ev, In ev (events o) /\ final_answer ev = Some v.
Proof.
  cbv zeta. rewrite run_query_unfold.
  destruct (session self) as [s|].
  2:{ cbn. split; [discriminate|]. intros (ev & [] & _). }
  destruct (list_tools s w) as [[e|r] w1].
  { cbn [res events]. split; [discriminate|].
    intros (ev & [<-|[]] & Hev). discriminate. }
  cbv zeta. cbn [res events].
  pose proof (tool_loop_return fuel self (map openai_tool (lt_tools r))
                [UserMsg query] w1 v) as Hloop.
  pose proof (tool_loop_no_break fuel self (map openai_tool (lt_tools r))
                [UserMsg query] w1) as Hbreak.
  cbv zeta in Hloop.
  destruct (res (tool_loop json_loads fuel self _ [UserMsg query] w1))
    as [[v'|]|e|] eqn:Hres.
  - split.
    + intros [= <-]. destruct (proj1 Hloop eq_refl) as (ev & Hin & Hev).
      exists ev. split; [now right|exact Hev].
    + intros (ev & [<-|Hin] & Hev); [discriminate|].
      assert (Ok (Some v') = Ok (Some v) :> Res (option (option string)))
        by (apply Hloop; now exists ev).
      congruence.
  - now contradiction Hbreak.
  - split; [discriminate|].
    intros (ev & [<-|Hin] & Hev); [discriminate|].
    assert (Raise e = Ok (Some v) :> Res (option (option string)))
      by (apply Hloop; now exists ev).
    discriminate.
  - split; [discriminate|].
    intros (ev & [<-|Hin] & Hev); [discriminate|].
    assert (OutOfFuel = Ok (Some v) :> Res (option (option string)))
      by (apply Hloop; now exists ev).
    discriminate.
Qed.

(** C1.  [process_query] returns exactly when a model response asks for no
    tool: it returns [v] if and only if the log of the run holds a response
    whose first choice has no tool calls and has content [v], and that
    response is then the last event of the run.  No bound on the number of
    passes is built into the loop: with a model that asks for tools on every
    response the run never returns, whatever the fuel, and when no
    collaborator raises it is still running after any number of model
    calls. *)
Theorem process_query_returns_iff_no_tool_calls (self : MCPClient World) :
  (forall fuel query w v,
      let o := run_query json_loads fuel self query w in
      (res o = Ok v
       <-> exists ev, In ev (events o) /\ final_answer ev = Some v)
      /\ (res o = Ok v ->
          exists t rq response,
            events o = t ++ [EvChatCreate rq (inr response)]
            /\ final_answer (EvChatCreate rq (inr response)) = Some v))
  /\ (always_asks_for_tools self ->
      forall fuel query w v,
        res (run_query json_loads fuel self query w) <> Ok v)
  /\ (always_asks_for_tools self -> never_fails json_loads self ->
      forall fuel query w,
        let o := run_query json_loads fuel self query w in
        res o = OutOfFuel /\ length (chat_requests (events o)) = fuel).
Proof.
  split; [|split].
  - intros fuel query w v. cbv zeta. split; [apply run_query_return|].
    rewrite run_query_unfold.
    destruct (session self) as [s|]; [|discriminate].
    destruct (list_tools s w) as [[e|r] w1]; [discriminate|].
    cbv zeta. cbn [res events].
    pose proof (tool_loop_return_last fuel self (map openai_tool (lt_tools r))
                  [UserMsg query] w1) as Hlast.
    cbv zeta in Hlast.
    destruct (res (tool_loop json_loads fuel self _ [UserMsg query] w1))
      as [[v'|]|e|] eqn:Hres; try discriminate.
    + intros [= <-].
      destruct (Hlast v' eq_refl) as (t & rq & response & Hev & Hans & _).
      exists (EvListTools (inr r) :: t), rq, response.
      rewrite Hev. split; [reflexivity|exact Hans].
    + intros _.
      now contradiction (tool_loop_no_break fuel self
                           (map openai_tool (lt_tools r)) [UserMsg query] w1).
  - intros Hasks fuel query w v. rewrite run_query_unfold.
    destruct (session self) as [s|]; [|discriminate].
    destruct (list_tools s w) as [[e|r] w1]; [discriminate|].
    cbv zeta. cbn [res].
    pose proof (tool_loop_never_returns fuel self
                  (map openai_tool (lt_tools r)) Hasks [UserMsg query] w1)
      as Hnever.
    destruct (res (tool_loop json_loads fuel self _ [UserMsg query] w1))
      as [[v'|]|e|]; try discriminate.
    + now contradiction (Hnever (Some v')).
    + now contradiction (Hnever None).
  - intros Hasks Hnf fuel query w. cbv zeta. rewrite run_query_unfold.
    pose proof Hnf as ((s & Hs & Hlist & _) & _). rewrite Hs.
    destruct (Hlist w) as (r & w1 & ->). cbv zeta. cbn [res events].
    pose proof (tool_loop_unbounded fuel self (map openai_tool (lt_tools r))
                  Hasks Hnf [UserMsg query] w1) as [Hres Hlen].
    cbv zeta in Hres, Hlen. rewrite Hres. split; [reflexivity|].
    cbn [chat_requests]. exact Hlen.
Qed.

(** C2, as the code has it.  When the first model response asks for no tool,
    [process_query] returns the content of that response unchanged, and
    [messages] holds the user turn alone at that moment: the answer is
    returned without being appended. *)
Theorem process_query_direct_answer
  (self : MCPClient World) fuel query w s r w1 response w2 m others :
  session self = Some s ->
  list_tools s w = (inr r, w1) ->
  chat_completions_create (openai_client self)
    (create_request self [UserMsg query] (map openai_tool (lt_tools r))) w1
  = (inr response, w2) ->
  choices response = m :: others ->
  truthy (cm_tool_calls m) = false ->
  let o := run_query json_loads (S fuel) self query w in
  res o = Ok (cm_content m) /\ locals o = [UserMsg query] /\ world o = w2.
Proof.
  intros Hs Hlist Hcreate Hchoices Htruthy. cbv zeta.
  rewrite run_query_unfold, Hs, Hlist. cbv zeta.
  rewrite tool_loop_unfold. cbv zeta.
  rewrite loop_body_unfold. cbv zeta.
  rewrite Hcreate, Hchoices, Htruthy. cbn. repeat split.
Qed.

(** A turn with a payload the parser rejects does not complete. *)
Lemma run_tool_calls_rejected {L : Type} self cs c e :
  In c cs -> json_loads (fc_arguments (tc_function c)) = inl e ->
  forall acc (l : L) w,
    exists e', res (run_tool_calls json_loads self cs acc l w) = Raise e'.
Proof.
  intros Hin Hparse.
  induction cs as [|c' cs IH]; intros acc l w; [contradiction|].
  rewrite run_tool_calls_cons.
  destruct (json_loads (fc_arguments (tc_function c'))) as [e'|args] eqn:Hc'.
  { now exists e'. }
  cbv zeta. destruct (session self) as [s|]; [|now eexists].
  destruct (call_tool s _ args w) as [[e'|result] w']; [now exists e'|].
  cbn [res]. destruct Hin as [->|Hin]; [congruence|]. now apply IH.
Qed.

(** C3, as the code has it.  A payload that [json.loads] rejects is not
    turned into a tool result: in a turn that holds such a tool call the loop
    raises, [messages] ends with the assistant turn and no tool-result turn
    is appended, and no further model call is made.  When the calls before
    the rejected one have all completed, the exception raised is the parser's
    and the server has been called for those calls only. *)
Theorem malformed_payload_aborts_query
  (self : MCPClient World) fuel tools ms w response w1 m others c e :
  chat_completions_create (openai_client self)
    (create_request self ms tools) w = (inr response, w1) ->
  choices response = m :: others ->
  In c (elements (cm_tool_calls m)) ->
  json_loads (fc_arguments (tc_function c)) = inl e ->
  let o := tool_loop json_loads (S fuel) self tools ms w in
  (exists e', res o = Raise e')
  /\ locals o = ms ++ [AssistantMsg m]
  /\ chat_requests (events o) = [create_request self ms tools]
  /\ (forall pre post results,
        elements (cm_tool_calls m) = pre ++ c :: post ->
        res (run_tool_calls json_loads self pre [] (ms ++ [AssistantMsg m]) w1)
        = Ok results ->
        res o = Raise e
        /\ length (tool_invocations (events o)) = length pre).
Proof.
  intros Hcreate Hchoices Hin Hparse. cbv zeta.
  assert (Htruthy : truthy (cm_tool_calls m) = true).
  { destruct (cm_tool_calls m) as [[|c0 cs]|]; simpl in *;
      try contradiction; reflexivity. }
  rewrite tool_loop_unfold. cbv zeta.
  pose proof (loop_body_request self tools ms w) as [Hrq _].
  cbv zeta in Hrq. revert Hrq.
  rewrite loop_body_unfold. cbv zeta.
  rewrite Hcreate, Hchoices, Htruthy.
  destruct (run_tool_calls_rejected self (elements (cm_tool_calls m)) c e
              Hin Hparse [] (ms ++ [AssistantMsg m]) w1) as (e' & He').
  rewrite He'. cbn [res locals events]. intros Hrq.
  split; [now exists e'|]. split; [reflexivity|]. split; [exact Hrq|].
  intros pre post results Hsplit Hpre.
  pose proof (run_tool_calls_ok self pre [] (ms ++ [AssistantMsg m]) w1
                results Hpre) as (rs & Hlen & _ & _ & Hnames & _).
  apply (f_equal (@length _)) in Hnames. rewrite !length_map in Hnames.
  revert He' Hnames Hpre. rewrite Hsplit, run_tool_calls_app. unfold bind.
  destruct (run_tool_calls json_loads self pre [] (ms ++ [AssistantMsg m]) w1)
    as [r l1 w2 t1].
  cbn [res events]. intros He' Hnames ->. revert He'.
  rewrite run_tool_calls_cons, Hparse.
  cbn [res events]. rewrite app_nil_r. intros [= ->].
  split; [reflexivity|].
  rewrite tool_invocations_app. cbn [tool_invocations app].
  exact Hnames.
Qed.

(** A tool-result turn is built from the content of the result alone: a
    result that reports a failed run is carried like any other. *)
Lemma tool_message_ignores_isError c content b1 b2 :
  tool_message c (mkCallToolResult content b1)
  = tool_message c (mkCallToolResult content b2).
Proof. reflexivity. Qed.

(** C4, as the code has it.  A failure that the server reports inside the
    result of [call_tool] is not raised: its content goes into a tool-result
    turn like that of a successful run.  The tool-result turns are appended
    when every call of the turn has been answered by a result, one per call;
    when the parser, the session or [call_tool] raises, the exception leaves
    the loop and no tool-result turn of that turn is appended. *)
Theorem tool_failure_in_result_is_a_turn
  (self : MCPClient World) tools ms w response w1 m others :
  chat_completions_create (openai_client self)
    (create_request self ms tools) w = (inr response, w1) ->
  choices response = m :: others ->
  truthy (cm_tool_calls m) = true ->
  let o := loop_body json_loads self tools ms w in
  let cs := elements (cm_tool_calls m) in
  (forall c content b,
      tool_message c (mkCallToolResult content b)
      = ToolMsg (tc_id c) (fc_name (tc_function c)) content)
  /\ ((res o = Ok Next
       /\ exists rs,
           length rs = length cs
           /\ tool_outcomes (events o) = map inr rs
           /\ locals o = ms ++ AssistantMsg m :: tool_messages cs rs)
      \/ (exists e,
             res o = Raise e
             /\ locals o = ms ++ [AssistantMsg m]
             /\ ((exists c, In c cs
                     /\ json_loads (fc_arguments (tc_function c)) = inl e)
                 \/ (session self = None
                     /\ e = AttributeError_None "call_tool")
                 \/ (exists outcomes,
                        tool_outcomes (events o) = outcomes ++ [inl e])))).
Proof.
  intros Hcreate Hchoices Htruthy. cbv zeta.
  split; [reflexivity|].
  rewrite loop_body_unfold. cbv zeta. rewrite Hcreate, Hchoices, Htruthy.
  pose proof (run_tool_calls_ok self (elements (cm_tool_calls m)) []
                (ms ++ [AssistantMsg m]) w1) as Hok.
  pose proof (run_tool_calls_raise self (elements (cm_tool_calls m)) []
                (ms ++ [AssistantMsg m]) w1) as Hraise.
  pose proof (run_tool_calls_frame self (elements (cm_tool_calls m)) []
                (ms ++ [AssistantMsg m]) w1) as (_ & _ & _ & Hfuel).
  cbv zeta in Hok, Hraise, Hfuel.
  destruct (res (run_tool_calls json_loads self _ [] _ w1))
    as [results|e|]; cbn [res locals events].
  - left. split; [reflexivity|].
    destruct (Hok results eq_refl) as (rs & Hlen & -> & Hout & _).
    exists rs. split; [exact Hlen|]. split.
    + rewrite tool_outcomes_app. exact Hout.
    + rewrite <- app_assoc. reflexivity.
  - right. exists e. split; [reflexivity|]. split; [reflexivity|].
    destruct (Hraise e eq_refl) as [Hc|[Hnone|(outs & Houts)]].
    + now left.
    + right. now left.
    + right. right. exists outs. rewrite tool_outcomes_app. exact Houts.
  - now contradiction Hfuel.
Qed.


(** ** Chains of states *)

(** Every state of a chain extends the first and is extended by the last. *)
Lemma state_chain_prefix rqs :
  forall ms final,
    state_chain ms rqs final ->
    prefix ms final
    /\ Forall (fun rq => prefix ms (rq_messages rq)
                       /\ prefix (rq_messages rq) final) rqs.
Proof.
  induction rqs as [|rq rest IH]; intros ms final; cbn [state_chain].
  - intros ->. split; [apply prefix_refl|constructor].
  - intros (Hrq & ms' & Hpre & _ & Hchain).
    destruct (IH _ _ Hchain) as [Hfinal Hall].
    assert (Hms : prefix ms final) by (eapply prefix_trans; eassumption).
    split; [exact Hms|]. constructor.
    + rewrite Hrq. split; [apply prefix_refl|exact Hms].
    + eapply Forall_impl; [|exact Hall].
      intros rq' [H1 H2]. split; [|exact H2].
      exact (prefix_trans _ _ _ Hpre H1).
Qed.

(** A later request carries the messages of an earlier one, followed by two
    turns or more. *)
Lemma state_chain_ordered l1 :
  forall ms final r1 l2 r2 l3,
    state_chain ms (l1 ++ r1 :: l2 ++ r2 :: l3) final ->
    prefix (rq_messages r1) (rq_messages r2)
    /\ length (rq_messages r1) + 2 <= length (rq_messages r2).
Proof.
  induction l1 as [|rq l1 IH]; intros ms final r1 l2 r2 l3.
  - cbn [app state_chain].
    intros (Hr1 & ms' & Hpre & Hgrow & Hchain).
    destruct Hgrow as [Hnil|Hgrow]; [now destruct l2|].
    apply state_chain_prefix in Hchain. destruct Hchain as [_ Hall].
    rewrite Forall_forall in Hall.
    destruct (Hall r2) as [Hr2 _]; [apply in_or_app; right; now left|].
    rewrite Hr1. split.
    + exact (prefix_trans _ _ _ Hpre Hr2).
    + apply prefix_length in Hr2. lia.
  - cbn [app state_chain].
    intros (_ & ms' & _ & _ & Hchain). eapply IH. exact Hchain.
Qed.

(** ** The requests of [process_query] *)

Lemma run_query_requests fuel self query w :
  let o := run_query json_loads fuel self query w in
  state_chain [UserMsg query] (chat_requests (events o)) (locals o)
  /\ list_tools_calls (events o) <= 1
  /\ forall s r w1,
      session self = Some s -> list_tools s w = (inr r, w1) ->
      Forall (fixed_arguments (azure_deployment_name self)
                (map openai_tool (lt_tools r)))
             (chat_requests (events o))
      /\ list_tools_calls (events o) = 1
      /\ exists t, events o = EvListTools (inr r) :: t.
Proof.
  cbv zeta. rewrite run_query_unfold.
  destruct (session self) as [s|].
  2:{ cbn. split; [reflexivity|]. split; [lia|]. discriminate. }
  destruct (list_tools s w) as [[e|r] w1] eqn:Hlist.
  { cbn. split; [reflexivity|]. split; [lia|].
    intros s' r' w' [= <-] H. rewrite Hlist in H. discriminate H. }
  cbv zeta. cbn [locals events chat_requests list_tools_calls].
  pose proof (tool_loop_requests fuel self (map openai_tool (lt_tools r))
                [UserMsg query] w1) as (Hfix & Hlt & Hchain).
  cbv zeta in Hfix, Hlt, Hchain. rewrite Hlt.
  split; [exact Hchain|]. split; [lia|].
  intros s' r' w' [= <-] H. rewrite Hlist in H. injection H as <- <-.
  split; [exact Hfix|]. split; [reflexivity|]. now eexists.
Qed.

(** C6.  Each pass of the loop makes one model call; its [messages]
    argument is the whole of the list as the pass finds it, its [tools]
    argument is the list built before the loop and its [tool_choice] is
    [auto].  Over a run of [process_query] the tools are listed once, as the
    first call of the run, every model call carries the tools of that one
    listing, and the [messages] of the successive calls are the successive
    states of the list, the first being the user turn alone. *)
Theorem model_call_carries_state_and_snapshot (self : MCPClient World) :
  (forall tools ms w,
      exists rq,
        chat_requests (events (loop_body json_loads self tools ms w)) = [rq]
        /\ rq_messages rq = ms /\ rq_tools rq = tools
        /\ rq_tool_choice rq = "auto")
  /\ (forall fuel query w s r w1,
        session self = Some s -> list_tools s w = (inr r, w1) ->
        let o := run_query json_loads fuel self query w in
        list_tools_calls (events o) = 1
        /\ (exists t, events o = EvListTools (inr r) :: t)
        /\ Forall (fun rq => rq_tools rq = map openai_tool (lt_tools r)
                            /\ rq_tool_choice rq = "auto")
                  (chat_requests (events o))
        /\ state_chain [UserMsg query] (chat_requests (events o))
                       (locals o)).
Proof.
  split.
  - intros tools ms w. exists (create_request self ms tools).
    pose proof (loop_body_request self tools ms w) as [Hrq _].
    split; [exact Hrq|]. repeat split.
  - intros fuel query w s r w1 Hs Hlist. cbv zeta.
    pose proof (run_query_requests fuel self query w) as (Hchain & _ & H).
    cbv zeta in Hchain, H.
    destruct (H s r w1 Hs Hlist) as (Hfix & Hlt & Hfirst).
    split; [exact Hlt|]. split; [exact Hfirst|]. split; [|exact Hchain].
    eapply Forall_impl; [|exact Hfix].
    intros rq (_ & _ & Htools & Hchoice). now split.
Qed.

(** C7.  During a run of [process_query] the list [messages] is only ever
    extended.  It starts as the user turn alone, which stays its first
    element; each pass of the loop leaves a list that extends the one it
    found, by two turns or more when another pass follows; and of two model
    calls of a run the later carries the messages of the earlier, unchanged
    and in place, followed by two turns or more.  What [messages] is at the
    end of the run extends what every model call carried. *)
Theorem conversation_is_append_only (self : MCPClient World) fuel query w :
  let o := run_query json_loads fuel self query w in
  prefix [UserMsg query] (locals o)
  /\ Forall (fun rq => prefix [UserMsg query] (rq_messages rq)
                      /\ prefix (rq_messages rq) (locals o))
            (chat_requests (events o))
  /\ (forall l1 r1 l2 r2 l3,
        chat_requests (events o) = l1 ++ r1 :: l2 ++ r2 :: l3 ->
        prefix (rq_messages r1) (rq_messages r2)
        /\ length (rq_messages r1) + 2 <= length (rq_messages r2))
  /\ (forall tools ms w',
        let pass := loop_body json_loads self tools ms w' in
        prefix ms (locals pass)
        /\ (res pass = Ok Next -> length ms + 2 <= length (locals pass))).
Proof.
  cbv zeta.
  pose proof (run_query_requests fuel self query w) as (Hchain & _).
  cbv zeta in Hchain.
  destruct (state_chain_prefix _ _ _ Hchain) as [Hfinal Hall].
  split; [exact Hfinal|]. split; [exact Hall|]. split.
  - intros l1 r1 l2 r2 l3 Hsplit. rewrite Hsplit in Hchain.
    eapply state_chain_ordered. exact Hchain.
  - intros tools ms w'. apply loop_body_extends.
Qed.

(** C10.  Every model call of a run of [process_query] asks for 1500
    completion tokens, whatever the pass of the loop that makes it. *)
Theorem model_call_max_tokens (self : MCPClient World) fuel query w :
  Forall (fun rq => rq_max_tokens rq = 1500%Z)
         (chat_requests (events (run_query json_loads fuel self query w))).
Proof.
  rewrite run_query_unfold.
  destruct (session self) as [s|]; [|constructor].
  destruct (list_tools s w) as [[e|r] w1]; [constructor|].
  cbv zeta. cbn [events chat_requests].
  pose proof (tool_loop_requests fuel self (map openai_tool (lt_tools r))
                [UserMsg query] w1) as (Hfix & _).
  cbv zeta in Hfix. eapply Forall_impl; [|exact Hfix].
  intros rq (_ & Hmax & _). exact Hmax.
Qed.

(** C9, as the code has it.  With a session that has not been set,
    [process_query] raises the [AttributeError] of the access to
    [list_tools] on [None]; nothing has been sent to the model or to the
    server, and [messages] holds the user turn. *)
Theorem unconnected_session_raises_AttributeError
  (self : MCPClient World) fuel query w :
  session self = None ->
  let o := run_query json_loads fuel self query w in
  res o = Raise (AttributeError_None "list_tools")
  /\ exn_class (AttributeError_None "list_tools") = "AttributeError"
  /\ events o = [] /\ world o = w /\ locals o = [UserMsg query].
Proof.
  intros Hs. cbv zeta. rewrite run_query_unfold, Hs. repeat split.
Qed.

(** ** Failures of the collaborators *)

(** An exception raised by the tool server ends the [for] loop. *)
Lemma run_tool_calls_failure {L : Type} self cs ev e :
  forall acc (l : L) w,
    let o := run_tool_calls json_loads self cs acc l w in
    In ev (events o) -> failure_of ev = Some e -> res o = Raise e.
Proof.
  induction cs as [|c cs IH]; intros acc l w; cbv zeta.
  - intros [].
  - rewrite run_tool_calls_cons.
    destruct (json_loads _) as [e'|args]; [intros []|].
    cbv zeta. destruct (session self) as [s|].
    2:{ intros [<-|[]]. discriminate. }
    destruct (call_tool s _ args w) as [[e'|result] w']; cbn [res events].
    + intros [<-|[<-|[]]]; [discriminate|]. now intros [= ->].
    + intros [<-|[<-|Hin]]; [discriminate|discriminate|]. now apply IH.
Qed.

(** An exception raised by the model API or by the tool server ends the
    pass, and the loop, with that exception. *)
Lemma loop_body_failure self tools ms w ev e :
  let o := loop_body json_loads self tools ms w in
  In ev (events o) -> failure_of ev = Some e -> res o = Raise e.
Proof.
  cbv zeta. pass_cases self tools ms w; cbn [res events].
  - intros [<-|[<-|[]]]; [discriminate|]. now intros [= ->].
  - intros [<-|[<-|[]]]; discriminate.
  - pose proof (run_tool_calls_failure self (elements (cm_tool_calls m)) ev e
                  [] (ms ++ [AssistantMsg m]) w1) as Hfail.
    cbv zeta in Hfail.
    destruct (res (run_tool_calls json_loads self _ [] _ w1)) as [results|e'|];
      cbn [res events]; intros Hin Hev; apply in_app_or in Hin;
      (destruct Hin as [[<-|[<-|[]]]|Hin]; [discriminate|discriminate|]);
      specialize (Hfail Hin Hev); congruence.
  - intros [<-|[<-|[]]]; discriminate.
Qed.

Lemma tool_loop_failure fuel self tools ev e :
  forall ms w,
    let o := tool_loop json_loads fuel self tools ms w in
    In ev (events o) -> failure_of ev = Some e ->
    res o = Raise e.
Proof.
  induction fuel as [|fuel IH]; intros ms w; cbv zeta.
  - intros [].
  - rewrite tool_loop_unfold. cbv zeta.
    pose proof (loop_body_failure self tools ms w ev e) as Hpass.
    cbv zeta in Hpass.
    destruct (res (loop_body json_loads self tools ms w)) as [[v| |]|e'|];
      cbn [res events]; intros Hin Hev;
      try (specialize (Hpass Hin Hev); congruence).
    apply in_app_or in Hin. destruct Hin as [Hin|Hin].
    + specialize (Hpass Hin Hev). discriminate.
    + now apply IH.
Qed.

(** Whatever a collaborator raises during [process_query] is what
    [process_query] raises. *)
Lemma run_query_failure fuel self query w ev e :
  let o := run_query json_loads fuel self query w in
  In ev (events o) -> failure_of ev = Some e -> res o = Raise e.
Proof.
  cbv zeta. rewrite run_query_unfold.
  destruct (session self) as [s|]; [|intros []].
  destruct (list_tools s w) as [[e'|r] w1]; cbn [res events].
  - intros [<-|[]]. now intros [= ->].
  - intros [<-|Hin] Hev; [discriminate|].
    now rewrite (tool_loop_failure fuel self _ ev e _ _ Hin Hev).
Qed.

(** More fuel does not change a run of [process_query] that has ended. *)
Lemma run_query_fuel_mono fuel self query w :
  res (run_query json_loads fuel self query w) <> OutOfFuel ->
  forall extra,
    run_query json_loads (fuel + extra) self query w
    = run_query json_loads fuel self query w.
Proof.
  intros Hend extra. revert Hend.
  rewrite (run_query_unfold (fuel + extra)), (run_query_unfold fuel).
  destruct (session self) as [s|]; [|reflexivity].
  destruct (list_tools s w) as [[e|r] w1]; [reflexivity|].
  cbv zeta. cbn [res]. intros Hend.
  rewrite tool_loop_fuel_mono; [reflexivity|].
  intros Hfuel. rewrite Hfuel in Hend. now contradiction Hend.
Qed.

(** ** The front end *)

(** [process_query] builds its [messages] anew: what a frame held before
    does not reach the run. *)
Lemma process_query_frame_fresh fuel self query (l : list Message) w :
  process_query_frame json_loads fuel self query l w
  = run_query json_loads fuel self query w.
Proof. reflexivity. Qed.

(** One pass of the front end on a line that holds a query. *)
Lemma chat_loop_body_query pq_fuel self line rest w :
  String.eqb (lower (strip line)) "quit" = false ->
  String.eqb (strip line) "" = false ->
  chat_loop_body json_loads strip lower pq_fuel self (line :: rest) w =
  let o := run_query json_loads pq_fuel self (strip line) w in
  match res o with
  | Ok (Some text) =>
      mkOut (Ok Next) rest (world o)
            (EvPrint OutPrompt :: events o ++ [EvPrint (OutReply text)])
  | Ok None =>
      mkOut (Ok Next) rest (world o)
            (EvPrint OutPrompt
             :: events o ++ [EvPrint (OutError (exn_str TypeError_concat))])
  | Raise e =>
      if exn_is_Exception e then
        mkOut (Ok Next) rest (world o)
              (EvPrint OutPrompt
               :: events o ++ [EvPrint (OutError (exn_str e))])
      else mkOut (Raise e) rest (world o) (EvPrint OutPrompt :: events o)
  | OutOfFuel => mkOut OutOfFuel rest (world o) (EvPrint OutPrompt :: events o)
  end.
Proof.
  intros Hquit Hempty.
  unfold chat_loop_body, try_except_Exception, input, process_query, call,
    concat_reply, bind, print, emit, get_locals, modify_locals, ret, raise.
  cbn [res locals world events app]. rewrite Hquit, Hempty.
  rewrite process_query_frame_fresh. cbv zeta.
  destruct (run_query json_loads pq_fuel self (strip line) w) as [r l' w' t].
  cbn [res locals world events app].
  destruct r as [[text|]|e|]; cbn [res locals world events app exn_is_Exception
                                   TypeError_concat];
    rewrite ?app_nil_r; reflexivity.
Qed.

(** [chat_loop], by how its loop ends. *)
Lemma chat_loop_unfold fuel pq_fuel self stdin w :
  chat_loop json_loads strip lower fuel pq_fuel self stdin w =
  let o := while_true fuel
      (chat_loop_body json_loads strip lower pq_fuel self) stdin w in
  mkOut match res o with
        | Ok _ => Ok tt
        | Raise e => Raise e
        | OutOfFuel => OutOfFuel
        end
        (locals o) (world o)
        (EvPrint OutStarted :: EvPrint OutUsage :: events o).
Proof.
  unfold chat_loop, bind, print, emit, ret.
  cbn [res locals world events app]. cbv zeta.
  destruct (while_true fuel
      (chat_loop_body json_loads strip lower pq_fuel self) stdin w)
    as [r l' w' t].
  cbn [res locals world events].
  destruct r; cbn [res locals world events app]; rewrite ?app_nil_r;
    reflexivity.
Qed.

(** C8.  An exception raised by the model API or by the tool server during
    [process_query] is the exception [process_query] raises to its caller.
    When [process_query] raises an exception derived from [Exception], the
    front end writes [str(e)] and goes on with its loop: what it does from
    there is what it does on the rest of the input, from the world the failed
    query left.  The [messages] of the failed query are not kept: the next
    query builds its list from the user turn alone. *)
Theorem query_failure_is_reported_and_survived
  (self : MCPClient World) fuel pq_fuel line rest w e :
  String.eqb (lower (strip line)) "quit" = false ->
  String.eqb (strip line) "" = false ->
  let failed := run_query json_loads pq_fuel self (strip line) w in
  res failed = Raise e ->
  exn_is_Exception e = true ->
  let loop := while_true (S fuel)
      (chat_loop_body json_loads strip lower pq_fuel self) in
  let next :=
    while_true fuel (chat_loop_body json_loads strip lower pq_fuel self)
               rest (world failed) in
  (forall ev e',
      In ev (events failed) -> failure_of ev = Some e' -> e' = e)
  /\ (res (loop (line :: rest) w) = res next
      /\ locals (loop (line :: rest) w) = locals next
      /\ world (loop (line :: rest) w) = world next
      /\ events (loop (line :: rest) w)
         = EvPrint OutPrompt
           :: events failed ++ EvPrint (OutError (exn_str e)) :: events next)
  /\ (let o := chat_loop json_loads strip lower
        (S fuel) pq_fuel self (line :: rest) w in
      let o' := chat_loop json_loads strip lower
            fuel pq_fuel self rest (world failed) in
      res o = res o' /\ locals o = locals o' /\ world o = world o'
      /\ In (EvPrint (OutError (exn_str e))) (events o))
  /\ (forall fuel' query' (left_over : list Message) w',
        process_query_frame json_loads fuel' self query' left_over w'
        = run_query json_loads fuel' self query' w'
        /\ state_chain [UserMsg query']
             (chat_requests (events (run_query json_loads fuel' self query' w')))
             (locals (run_query json_loads fuel' self query' w'))).
Proof.
  intros Hquit Hempty failed Hraise Hexc loop next.
  assert (Hloop :
            res (loop (line :: rest) w) = res next
            /\ locals (loop (line :: rest) w) = locals next
            /\ world (loop (line :: rest) w) = world next
            /\ events (loop (line :: rest) w)
               = EvPrint OutPrompt
                 :: events failed ++ EvPrint (OutError (exn_str e))
                 :: events next).
  { subst loop next. rewrite while_true_unfold. cbv zeta.
    rewrite (chat_loop_body_query pq_fuel self line rest w Hquit Hempty).
    cbv zeta. fold failed. rewrite Hraise, Hexc.
    cbn [res locals world events app].
    repeat split. rewrite <- app_assoc. reflexivity. }
  split.
  { intros ev e' Hin Hev.
    pose proof (run_query_failure pq_fuel self (strip line) w ev e' Hin Hev)
      as Hsurfaces.
    fold failed in Hsurfaces. congruence. }
  split; [exact Hloop|]. split.
  - cbv zeta. rewrite !chat_loop_unfold. cbv zeta.
    cbn [res locals world events].
    destruct Hloop as (Hres & Hlocals & Hworld & Hevents).
    fold loop. fold failed. fold next.
    rewrite Hres, Hlocals, Hworld, Hevents.
    repeat split.
    right. right. right. apply in_or_app. right. now left.
  - intros fuel' query' left_over w'.
    split; [apply process_query_frame_fresh|].
    apply run_query_requests.
Qed.

End Facts.

(** * Runs on the scripted collaborators *)

(** ** A model that never stops asking *)

Lemma insatiable_always_asks :
  always_asks_for_tools (Demo.obliged_client Demo.insatiable).
Proof.
  intros rq w response w' Hcreate m others Hchoices.
  cbn in Hcreate. injection Hcreate as <- _.
  cbn in Hchoices. injection Hchoices as <- _. reflexivity.
Defined.

Lemma insatiable_never_fails :
  never_fails Demo.json_loads (Demo.obliged_client Demo.insatiable).
Proof.
  split.
  - exists Demo.obliging_server. split; [reflexivity|]. split.
    + intros w. now exists (mkListTools Demo.catalog), w.
    + intros name arguments w.
      now exists (mkCallToolResult [TextContent name] false), w.
  - intros rq w.
    exists (Demo.calls_reply [Demo.tool_call "call_n" "list_issues" "{}"]),
      (S w), (Demo.asks [Demo.tool_call "call_n" "list_issues" "{}"]), [].
    split; [reflexivity|]. split; [reflexivity|].
    constructor; [|constructor]. now exists (JObj []).
Defined.

Lemma process_query_returns_iff_no_tool_calls_witness :
  always_asks_for_tools (Demo.obliged_client Demo.insatiable)
  /\ never_fails Demo.json_loads (Demo.obliged_client Demo.insatiable)
  /\ (let o := run_query Demo.json_loads 6
                 (Demo.obliged_client Demo.insatiable) "list open issues" 0 in
      res o = OutOfFuel /\ length (chat_requests (events o)) = 6)
  /\ (forall v,
        res (run_query Demo.json_loads 6
               (Demo.obliged_client Demo.insatiable) "list open issues" 0)
        <> Ok v).
Proof.
  split; [exact insatiable_always_asks|].
  split; [exact insatiable_never_fails|].
  pose proof (process_query_returns_iff_no_tool_calls nat Demo.json_loads
                (Demo.obliged_client Demo.insatiable)) as (_ & Hnever & Hrun).
  split.
  - exact (Hrun insatiable_always_asks insatiable_never_fails
             6 "list open issues" 0).
  - intros v.
    exact (Hnever insatiable_always_asks 6 "list open issues" 0 v).
Defined.

(** ** A direct answer *)

Lemma process_query_direct_answer_witness :
  let o := run_query Demo.json_loads 1 (Demo.client Demo.direct) "hi" 0 in
  res o = Ok (Some "Hello!") /\ locals o = [UserMsg "hi"] /\ world o = 1.
Proof.
  exact (process_query_direct_answer nat Demo.json_loads
           (Demo.client Demo.direct) 0 "hi" 0 Demo.server
           (mkListTools Demo.catalog) 0 (Demo.text_reply "Hello!") 1
           (Demo.says "Hello!") []
           eq_refl eq_refl eq_refl eq_refl eq_refl).
Defined.

(** The first response of the model asks for no tool, and at the return
    [messages] is not the user turn followed by the assistant turn: it holds
    one turn. *)
Lemma direct_answer_is_not_appended :
  let o := run_query Demo.json_loads 1 (Demo.client Demo.direct) "hi" 0 in
  chat_requests (events o)
  = [create_request (Demo.client Demo.direct) [UserMsg "hi"]
       Demo.available_tools]
  /\ res o = Ok (Some "Hello!")
  /\ locals o <> [UserMsg "hi"; AssistantMsg (Demo.says "Hello!")]
  /\ length (locals o) <> 2.
Proof.
  cbv zeta. split; [reflexivity|]. split; [reflexivity|].
  split; [discriminate|]. cbn. lia.
Qed.

(** ** A payload that is not JSON *)

Lemma malformed_payload_aborts_query_witness :
  let o := tool_loop Demo.json_loads 3 (Demo.client Demo.bad_payload)
             Demo.available_tools [UserMsg "list open issues"] 0 in
  res o = Raise Demo.JSONDecodeError
  /\ locals o
     = [UserMsg "list open issues";
        AssistantMsg (Demo.asks [Demo.tool_call "call_1" "list_issues" "{oops"])]
  /\ length (chat_requests (events o)) = 1
  /\ length (tool_invocations (events o)) = 0.
Proof.
  cbv zeta.
  destruct (malformed_payload_aborts_query nat Demo.json_loads
              (Demo.client Demo.bad_payload) 2 Demo.available_tools
              [UserMsg "list open issues"] 0
              (Demo.calls_reply
                 [Demo.tool_call "call_1" "list_issues" "{oops"]) 1
              (Demo.asks [Demo.tool_call "call_1" "list_issues" "{oops"]) []
              (Demo.tool_call "call_1" "list_issues" "{oops")
              Demo.JSONDecodeError
              eq_refl eq_refl (or_introl eq_refl) eq_refl)
    as (_ & Hlocals & Hrq & Hfirst).
  destruct (Hfirst [] [] [] eq_refl eq_refl) as [Hres Hcalls].
  split; [exact Hres|]. split; [exact Hlocals|].
  split; [now rewrite Hrq|exact Hcalls].
Defined.

(** The payload of the one tool call is rejected by the parser: the query
    ends by the parser's exception, no tool-result turn has been appended
    and the model has been called once, with fuel left for more passes. *)
Lemma malformed_payload_is_raised :
  let o := run_query Demo.json_loads 3 (Demo.client Demo.bad_payload)
             "list open issues" 0 in
  Demo.json_loads "{oops" = inl Demo.JSONDecodeError
  /\ res o = Raise Demo.JSONDecodeError
  /\ filter is_tool_msg (locals o) = []
  /\ length (chat_requests (events o)) = 1.
Proof. cbv zeta. repeat split. Qed.

(** ** Tools that fail *)

Lemma tool_failure_in_result_is_a_turn_witness :
  let o := loop_body Demo.json_loads (Demo.client Demo.failed_run)
             Demo.available_tools [UserMsg "open an issue"] 0 in
  res o = Ok Next
  /\ tool_outcomes (events o)
     = [inr (mkCallToolResult [TextContent "Validation Failed"] true);
        inr (mkCallToolResult [TextContent "count: 3"] false)]
  /\ filter is_tool_msg (locals o)
     = [ToolMsg "call_1" "create_issue" [TextContent "Validation Failed"];
        ToolMsg "call_2" "list_issues" [TextContent "count: 3"]].
Proof.
  cbv zeta.
  destruct (tool_failure_in_result_is_a_turn nat Demo.json_loads
              (Demo.client Demo.failed_run) Demo.available_tools
              [UserMsg "open an issue"] 0
              (Demo.calls_reply
                 [Demo.tool_call "call_1" "create_issue" "{}";
                  Demo.tool_call "call_2" "list_issues" "[]"]) 1
              (Demo.asks [Demo.tool_call "call_1" "create_issue" "{}";
                          Demo.tool_call "call_2" "list_issues" "[]"]) []
              eq_refl eq_refl eq_refl)
    as (_ & [(Hres & _)|(e & Hres & _)]).
  - split; [exact Hres|]. split; reflexivity.
  - discriminate Hres.
Defined.

(** The server reports the failed run of the first tool in its result and
    the session raises for the second, unknown tool: the query ends by that
    exception and the first call has no tool-result turn either. *)
Lemma failed_tool_call_has_no_turn :
  let o := run_query Demo.json_loads 3 (Demo.client Demo.failing_tools)
             "clean up" 0 in
  tool_outcomes (events o)
  = [inr (mkCallToolResult [TextContent "Validation Failed"] true);
     inl (Demo.McpError "Unknown tool")]
  /\ res o = Raise (Demo.McpError "Unknown tool")
  /\ filter is_tool_msg (locals o) = []
  /\ length (chat_requests (events o)) = 1.
Proof. cbv zeta. repeat split. Qed.

(** ** One round of tool calls *)

(** The run of the query [list open issues]: one tool call, then the
    answer. *)
Example one_round_run :
  let o := run_query Demo.json_loads 5 (Demo.client Demo.one_round)
             "list open issues" 0 in
  res o = Ok (Some "There are 3 open issues.")
  /\ locals o
     = [UserMsg "list open issues";
        AssistantMsg (Demo.asks [Demo.tool_call "call_1" "list_issues" "{}"]);
        ToolMsg "call_1" "list_issues" [TextContent "count: 3"]]
  /\ tool_invocations (events o) = [("list_issues", JObj [])]
  /\ map rq_messages (chat_requests (events o))
     = [[UserMsg "list open issues"]; locals o].
Proof. cbv zeta. repeat split. Qed.

(** A session of the front end: a query that fails, an empty line, a query
    that is answered, and the word that ends the session. *)
Example chat_session :
  let o := chat_loop Demo.json_loads
      AsciiStr.strip AsciiStr.lower 9 5 (Demo.client Demo.bad_payload)
             [" list open issues"; "  "; "and now?"; "QUIT"; "ignored"] 0 in
  res o = Ok tt
  /\ locals o = ["ignored"]
  /\ filter (fun ev => match ev with
                       | EvPrint (OutReply _) | EvPrint (OutError _) => true
                       | _ => false
                       end) (events o)
     = [EvPrint (OutError (exn_str Demo.JSONDecodeError));
        EvPrint (OutReply "Done.")].
Proof. cbv zeta. repeat split. Qed.


Lemma model_call_carries_state_and_snapshot_witness :
  let o := run_query Demo.json_loads 5 (Demo.client Demo.one_round)
             "list open issues" 0 in
  list_tools_calls (events o) = 1
  /\ (exists t, events o = EvListTools (inr (mkListTools Demo.catalog)) :: t)
  /\ Forall (fun rq => rq_tools rq = Demo.available_tools
                       /\ rq_tool_choice rq = "auto")
            (chat_requests (events o))
  /\ state_chain [UserMsg "list open issues"] (chat_requests (events o))
                 (locals o).
Proof.
  exact (proj2 (model_call_carries_state_and_snapshot nat Demo.json_loads
                  (Demo.client Demo.one_round))
           5 "list open issues" 0 Demo.server (mkListTools Demo.catalog) 0
           eq_refl eq_refl).
Defined.

Lemma conversation_is_append_only_witness :
  let o := run_query Demo.json_loads 5 (Demo.client Demo.one_round)
             "list open issues" 0 in
  length (chat_requests (events o)) = 2
  /\ length (locals o) = 3
  /\ prefix [UserMsg "list open issues"] (locals o)
  /\ Forall (fun rq => prefix [UserMsg "list open issues"] (rq_messages rq)
                       /\ prefix (rq_messages rq) (locals o))
            (chat_requests (events o)).
Proof.
  cbv zeta. split; [reflexivity|]. split; [reflexivity|].
  pose proof (conversation_is_append_only nat Demo.json_loads
                (Demo.client Demo.one_round) 5 "list open issues" 0)
    as (Hfirst & Hall & _).
  split; [exact Hfirst|exact Hall].
Defined.

(** ** A query that fails *)

Lemma query_failure_is_reported_and_survived_witness :
  let self := Demo.client Demo.api_down in
  res (run_query Demo.json_loads 3 self "hi" 0) = Raise Demo.APIConnectionError
  /\ (let o := chat_loop Demo.json_loads
      AsciiStr.strip AsciiStr.lower 3 3 self ["  hi "; "Quit"] 0 in
      let o' := chat_loop Demo.json_loads
          AsciiStr.strip AsciiStr.lower 2 3 self ["Quit"] 1 in
      res o = res o' /\ locals o = locals o' /\ world o = world o'
      /\ In (EvPrint (OutError "Connection error.")) (events o))
  /\ res (chat_loop Demo.json_loads
      AsciiStr.strip AsciiStr.lower 3 3 self ["  hi "; "Quit"] 0) = Ok tt.
Proof.
  cbv zeta. split; [reflexivity|]. split; [|reflexivity].
  exact (proj1 (proj2 (proj2
           (query_failure_is_reported_and_survived nat Demo.json_loads
               AsciiStr.strip AsciiStr.lower
              (Demo.client Demo.api_down) 2 3 "  hi " ["Quit"] 0
              Demo.APIConnectionError eq_refl eq_refl eq_refl eq_refl)))).
Defined.

(** ** A session that is not connected *)

Lemma unconnected_session_raises_AttributeError_witness :
  let o := run_query Demo.json_loads 3 (Demo.unconnected Demo.direct) "hi" 0 in
  res o = Raise (AttributeError_None "list_tools")
  /\ exn_class (AttributeError_None "list_tools") = "AttributeError"
  /\ events o = [] /\ world o = 0 /\ locals o = [UserMsg "hi"].
Proof.
  exact (unconnected_session_raises_AttributeError nat Demo.json_loads
           (Demo.unconnected Demo.direct) 3 "hi" 0 eq_refl).
Defined.

(** The exception raised on a session that is not connected is not of a
    class named [NotConnected]. *)
Lemma unconnected_session_error_is_not_NotConnected :
  let o := run_query Demo.json_loads 3 (Demo.unconnected Demo.direct) "hi" 0 in
  session (Demo.unconnected Demo.direct) = None
  /\ exists e, res o = Raise e
               /\ exn_class e = "AttributeError"
               /\ exn_class e <> "NotConnected".
Proof.
  cbv zeta. split; [reflexivity|].
  exists (AttributeError_None "list_tools").
  split; [reflexivity|]. split; [reflexivity|]. discriminate.
Qed.

(** * Further properties of [process_query] *)

Section QueryFacts.

Variable World : Type.
Variable json_loads : string -> PyExn + Json.

Implicit Types (self : MCPClient World) (w : World).
Implicit Types (ms : list Message) (t : list Event).

(** ** The tools given to the model *)

(** The conversion of a tool loses nothing. *)
Lemma openai_tool_injective tool1 tool2 :
  openai_tool tool1 = openai_tool tool2 -> tool1 = tool2.
Proof.
  destruct tool1, tool2. unfold openai_tool. cbn. congruence.
Qed.

Lemma map_openai_tool_injective listing1 :
  forall listing2,
    map openai_tool listing1 = map openai_tool listing2 ->
    listing1 = listing2.
Proof.
  induction listing1 as [|tool1 listing1 IH]; intros [|tool2 listing2];
    cbn [map]; try discriminate; [reflexivity|].
  intros Heq. injection Heq as Hname Hdescription Hschema Hrest.
  f_equal; [|now apply IH].
  destruct tool1, tool2. cbn in *. congruence.
Qed.

(** X1.  Every model call of a run is given the tools of the server as the
    server listed them: as many entries, in the same order, each of type
    [function] and with the name, the description and the schema of its
    tool; two different listings are never given as the same list. *)
Theorem model_is_given_the_listed_tools
  (self : MCPClient World) fuel query w s r w1 :
  session self = Some s ->
  list_tools s w = (inr r, w1) ->
  Forall (fun rq =>
            map (fun p => fs_name (tp_function p)) (rq_tools rq)
            = map tool_name (lt_tools r)
            /\ map (fun p => fs_description (tp_function p)) (rq_tools rq)
               = map tool_description (lt_tools r)
            /\ map (fun p => fs_parameters (tp_function p)) (rq_tools rq)
               = map tool_inputSchema (lt_tools r)
            /\ Forall (fun p => tp_type p = "function") (rq_tools rq)
            /\ (forall listing,
                  rq_tools rq = map openai_tool listing ->
                  listing = lt_tools r))
         (chat_requests (events (run_query json_loads fuel self query w))).
Proof.
  intros Hs Hlist.
  pose proof (run_query_requests World json_loads fuel self query w) as (_ & _ & H).
  destruct (H s r w1 Hs Hlist) as (Hfix & _).
  eapply Forall_impl; [|exact Hfix].
  intros rq (_ & _ & -> & _). rewrite !map_map. cbn.
  split; [reflexivity|]. split; [reflexivity|]. split; [reflexivity|].
  split.
  - apply Forall_forall. intros p Hin. apply in_map_iff in Hin.
    destruct Hin as (tool & <- & _). reflexivity.
  - intros listing Heq. symmetry. now apply map_openai_tool_injective.
Qed.

(** X2.  When the listing of the tools raises, [process_query] raises that
    exception at once: the model is not called, no tool is run, and
    [messages] holds the user turn. *)
Theorem listing_failure_stops_the_query
  (self : MCPClient World) fuel query w s e w1 :
  session self = Some s ->
  list_tools s w = (inl e, w1) ->
  let o := run_query json_loads fuel self query w in
  res o = Raise e /\ locals o = [UserMsg query] /\ world o = w1
  /\ chat_requests (events o) = [] /\ tool_invocations (events o) = [].
Proof.
  intros Hs Hlist. cbv zeta. rewrite run_query_unfold, Hs, Hlist.
  repeat split.
Qed.

(** X3.  A model response with an empty list of choices makes the pass, and
    so the loop, raise [IndexError]; nothing has been appended to
    [messages] and no tool has been run. *)
Theorem empty_choices_raise_IndexError
  (self : MCPClient World) fuel tools ms w response w1 :
  chat_completions_create (openai_client self)
    (create_request self ms tools) w = (inr response, w1) ->
  choices response = [] ->
  let o := tool_loop json_loads (S fuel) self tools ms w in
  res o = Raise IndexError_range /\ locals o = ms /\ world o = w1
  /\ tool_invocations (events o) = []
  /\ length (chat_requests (events o)) = 1.
Proof.
  intros Hcreate Hchoices. cbv zeta.
  rewrite tool_loop_unfold. cbv zeta.
  rewrite loop_body_unfold. cbv zeta. rewrite Hcreate, Hchoices.
  repeat split.
Qed.

(** ** The shape of the conversation *)

(** A pass that is followed by another has appended one complete round. *)
Lemma loop_body_round self tools ms w :
  let o := loop_body json_loads self tools ms w in
  res o = Ok Next ->
  exists m cs rs,
    locals o = ms ++ AssistantMsg m :: tool_messages cs rs
    /\ cm_tool_calls m = Some cs /\ cs <> [] /\ length rs = length cs.
Proof.
  cbv zeta. rewrite loop_body_unfold. cbv zeta.
  destruct (chat_completions_create _ _ w) as [[e|response] w1];
    [discriminate|].
  destruct (choices response) as [|m others]; [discriminate|].
  destruct (truthy (cm_tool_calls m)) eqn:Htruthy; [|discriminate].
  pose proof (run_tool_calls_ok World json_loads self (elements (cm_tool_calls m))
                [] (ms ++ [AssistantMsg m]) w1) as Hok.
  cbv zeta in Hok.
  destruct (res (run_tool_calls json_loads self _ [] _ w1))
    as [results|e|]; cbn [res locals]; try discriminate.
  intros _. destruct (Hok results eq_refl) as (rs & Hlen & -> & _).
  destruct (cm_tool_calls m) as [[|c cs]|] eqn:Hcalls; try discriminate.
  exists m, (c :: cs), rs. cbn [elements app] in *.
  rewrite <- app_assoc. repeat split; try assumption. discriminate.
Qed.

Lemma tool_loop_well_formed fuel self tools query :
  forall ms w,
    well_formed_conversation query ms ->
    let o := tool_loop json_loads fuel self tools ms w in
    Forall (fun rq => well_formed_conversation query (rq_messages rq))
           (chat_requests (events o))
    /\ (forall v, res o = Ok v -> well_formed_conversation query (locals o)).
Proof.
  induction fuel as [|fuel IH]; intros ms w Hms; cbv zeta.
  - cbn. split; [constructor|discriminate].
  - rewrite tool_loop_unfold. cbv zeta.
    pose proof (loop_body_request World json_loads self tools ms w) as [Hrq _].
    pose proof (loop_body_round self tools ms w) as Hround.
    pose proof (loop_body_return_last World json_loads self tools ms w) as Hret.
    pose proof (loop_body_ends World json_loads self tools ms w)
      as [Hbreak _].
    cbv zeta in Hrq, Hround, Hret, Hbreak.
    destruct (res (loop_body json_loads self tools ms w)) as [[v| |]|e|];
      cbn [res locals events]; try rewrite Hrq.
    2:{ now contradiction Hbreak. }
    2:{ destruct (Hround eq_refl) as (m & cs & rs & Hl & Hcalls & Hne & Hlen).
        destruct Hms as (rounds & -> & Hrounds).
        assert (Hnext : well_formed_conversation query
                          (locals (loop_body json_loads self tools
                                     (UserMsg query :: rounds) w))).
        { rewrite Hl. exists (rounds ++ AssistantMsg m :: tool_messages cs rs).
          split; [reflexivity|]. now constructor. }
        destruct (IH _ (world (loop_body json_loads self tools
                                 (UserMsg query :: rounds) w)) Hnext)
          as [IHrq IHret].
        rewrite chat_requests_app, Hrq. split; [|exact IHret].
        constructor; [|exact IHrq]. cbn. now exists rounds. }
    all: split; [constructor; [exact Hms|constructor]|]; try discriminate.
    intros v' _. destruct (Hret v eq_refl) as [-> _]. exact Hms.
Qed.

Lemma run_query_well_formed self fuel query w :
  let o := run_query json_loads fuel self query w in
  Forall (fun rq => well_formed_conversation query (rq_messages rq))
         (chat_requests (events o))
  /\ (forall v, res o = Ok v -> well_formed_conversation query (locals o)).
Proof.
  cbv zeta. rewrite run_query_unfold.
  destruct (session self) as [s|]; [|split; [constructor|discriminate]].
  destruct (list_tools s w) as [[e|r] w1];
    [split; [constructor|discriminate]|].
  cbv zeta. cbn [res locals events chat_requests].
  assert (Hstart : well_formed_conversation query [UserMsg query])
    by (exists []; split; [reflexivity|constructor]).
  destruct (tool_loop_well_formed fuel self (map openai_tool (lt_tools r))
              query [UserMsg query] w1 Hstart) as [Hrq Hret].
  split; [exact Hrq|].
  destruct (res (tool_loop json_loads fuel self _ [UserMsg query] w1))
    as [[v'|]|e|]; try discriminate; intros v _; eapply Hret; reflexivity.
Qed.

(** X4.  Every request [process_query] sends to the model holds a
    conversation made of the user turn of the query followed by complete
    rounds: each assistant turn in it asks for tools and is followed by the
    tool-result turns of exactly its calls, in their order.  The list
    [messages] has that shape too when [process_query] returns. *)
Theorem requests_hold_complete_rounds
  (self : MCPClient World) fuel query w :
  let o := run_query json_loads fuel self query w in
  Forall (fun rq => well_formed_conversation query (rq_messages rq))
         (chat_requests (events o))
  /\ (forall v, res o = Ok v -> well_formed_conversation query (locals o)).
Proof. apply run_query_well_formed. Qed.

(** ** After a failure *)

Lemma Forall_removelast {A : Type} (P : A -> Prop) (l : list A) :
  Forall P l -> Forall P (removelast l).
Proof.
  induction 1 as [|a l Ha Hl IH]; [constructor|].
  cbn. destruct l; [constructor|]. constructor; assumption.
Qed.

Lemma Forall_removelast_app {A : Type} (P : A -> Prop) (l l' : list A) :
  Forall P l -> Forall P (removelast l') -> Forall P (removelast (l ++ l')).
Proof.
  intros Hl Hl'. destruct l' as [|a l'].
  - rewrite app_nil_r. now apply Forall_removelast.
  - rewrite removelast_app by discriminate. apply Forall_app. now split.
Qed.

(** A computation that has not raised has seen no call fail. *)
Lemma no_failure_unless_raised (t : list Event) (r : option PyExn) :
  (forall ev e, In ev t -> failure_of ev = Some e -> r = Some e) ->
  r = None ->
  Forall (fun ev => failure_of ev = None) t.
Proof.
  intros H Hr. apply Forall_forall. intros ev Hin.
  destruct (failure_of ev) as [e|] eqn:Hev; [|reflexivity].
  specialize (H ev e Hin Hev). congruence.
Qed.

Lemma run_tool_calls_failure_last {L : Type} self cs :
  forall acc (l : L) w,
    Forall (fun ev => failure_of ev = None)
           (removelast (events (run_tool_calls json_loads self cs acc l w))).
Proof.
  induction cs as [|c cs IH]; intros acc l w.
  - constructor.
  - rewrite run_tool_calls_cons.
    destruct (json_loads _) as [e|args]; [constructor|].
    cbv zeta. destruct (session self) as [s|]; [|constructor].
    destruct (call_tool s _ args w) as [[e|result] w']; cbn [events].
    + repeat constructor.
    + apply (Forall_removelast_app _ [_; _]); [repeat constructor|apply IH].
Qed.

Lemma loop_body_failure_last self tools ms w :
  Forall (fun ev => failure_of ev = None)
         (removelast (events (loop_body json_loads self tools ms w))).
Proof.
  rewrite loop_body_unfold. cbv zeta.
  destruct (chat_completions_create _ _ w) as [[e|response] w1];
    [repeat constructor|].
  destruct (choices response) as [|m others]; [repeat constructor|].
  destruct (truthy (cm_tool_calls m)); [|repeat constructor].
  pose proof (run_tool_calls_failure_last self (elements (cm_tool_calls m))
                [] (ms ++ [AssistantMsg m]) w1) as Hlast.
  destruct (res (run_tool_calls json_loads self _ [] _ w1)); cbn [events];
    (apply Forall_removelast_app; [repeat constructor|exact Hlast]).
Qed.

Lemma tool_loop_failure_last fuel self tools :
  forall ms w,
    Forall (fun ev => failure_of ev = None)
           (removelast (events (tool_loop json_loads fuel self tools ms w))).
Proof.
  induction fuel as [|fuel IH]; intros ms w; [constructor|].
  rewrite tool_loop_unfold. cbv zeta.
  pose proof (loop_body_failure_last self tools ms w) as Hlast.
  pose proof (loop_body_failure World json_loads self tools ms w) as Hfail.
  cbv zeta in Hfail.
  destruct (res (loop_body json_loads self tools ms w)) as [[v| |]|e|];
    cbn [events]; try exact Hlast.
  apply Forall_removelast_app; [|apply IH].
  apply (no_failure_unless_raised _ None); [|reflexivity].
  intros ev e Hin Hev. specialize (Hfail ev e Hin Hev). discriminate.
Qed.

(** X5.  [process_query] makes no call after one that failed: an exception
    raised by the tool listing, by the model API or by a tool call is the
    last event of the run, and it is the exception [process_query] raises.
    There is no retry and no fallback. *)
Theorem nothing_follows_a_failure (self : MCPClient World) fuel query w :
  let o := run_query json_loads fuel self query w in
  Forall (fun ev => failure_of ev = None) (removelast (events o))
  /\ (forall ev e,
        In ev (events o) -> failure_of ev = Some e -> res o = Raise e).
Proof.
  cbv zeta. split; [|intros ev e; apply run_query_failure].
  rewrite run_query_unfold.
  destruct (session self) as [s|]; [|constructor].
  destruct (list_tools s w) as [[e|r] w1]; [constructor|].
  cbv zeta. cbn [events].
  apply (Forall_removelast_app _ [_]); [repeat constructor|].
  apply tool_loop_failure_last.
Qed.

End QueryFacts.

(** * Further properties of [chat_loop] *)

Section FrontEndFacts.

Variable World : Type.
Variable json_loads : string -> PyExn + Json.
Variable strip : string -> string.
Variable lower : string -> string.

Implicit Types (self : MCPClient World) (w : World).

(** One pass of the front end, by what standard input holds. *)
Lemma chat_loop_body_unfold pq_fuel self stdin w :
  chat_loop_body json_loads strip lower pq_fuel self stdin w =
  match stdin with
  | [] =>
      mkOut (Ok Next) [] w
            [EvPrint OutPrompt; EvPrint (OutError (exn_str EOFError_input))]
  | line :: rest =>
      if is_quit strip lower line then mkOut (Ok Break) rest w [EvPrint OutPrompt]
      else if String.eqb (strip line) "" then
        mkOut (Ok Next) rest w [EvPrint OutPrompt]
      else
        let o := run_query json_loads pq_fuel self (strip line) w in
        match res o with
        | Ok (Some text) =>
            mkOut (Ok Next) rest (world o)
                  (EvPrint OutPrompt :: events o ++ [EvPrint (OutReply text)])
        | Ok None =>
            mkOut (Ok Next) rest (world o)
                  (EvPrint OutPrompt
                   :: events o
                   ++ [EvPrint (OutError (exn_str TypeError_concat))])
        | Raise e =>
            if exn_is_Exception e then
              mkOut (Ok Next) rest (world o)
                    (EvPrint OutPrompt
                     :: events o ++ [EvPrint (OutError (exn_str e))])
            else mkOut (Raise e) rest (world o) (EvPrint OutPrompt :: events o)
        | OutOfFuel =>
            mkOut OutOfFuel rest (world o) (EvPrint OutPrompt :: events o)
        end
  end.
Proof.
  destruct stdin as [|line rest].
  - reflexivity.
  - unfold is_quit.
    destruct (String.eqb (lower (strip line)) "quit") eqn:Hquit.
    + unfold chat_loop_body, try_except_Exception, input, bind, print, emit,
        get_locals, modify_locals, ret.
      cbn [res locals world events app]. rewrite Hquit. reflexivity.
    + destruct (String.eqb (strip line) "") eqn:Hempty.
      * unfold chat_loop_body, try_except_Exception, input, bind, print, emit,
          get_locals, modify_locals, ret.
        cbn [res locals world events app]. rewrite Hquit, Hempty. reflexivity.
      * now apply chat_loop_body_query.
Qed.

(** X6.  A line that is [quit] once stripped and lowered ends the session:
    [chat_loop] returns without a query having been processed, and the lines
    after it are left unread. *)
Theorem quit_ends_the_session
  (self : MCPClient World) fuel pq_fuel line rest w :
  is_quit strip lower line = true ->
  chat_loop json_loads strip lower (S fuel) pq_fuel self (line :: rest) w
  = mkOut (Ok tt) rest w
          [EvPrint OutStarted; EvPrint OutUsage; EvPrint OutPrompt].
Proof.
  intros Hquit. rewrite chat_loop_unfold. cbv zeta.
  rewrite while_true_unfold. cbv zeta.
  rewrite chat_loop_body_unfold, Hquit. reflexivity.
Qed.

(** X7.  A line that is empty once stripped is skipped: no query is
    processed for it, and the session goes on with the next line.  (The
    test for [quit] comes first in the code; it fails on such a line since
    lowering the empty string gives the empty string.) *)
Theorem blank_line_is_skipped
  (self : MCPClient World) fuel pq_fuel line rest w :
  lower "" = "" ->
  strip line = "" ->
  let o := while_true (S fuel)
             (chat_loop_body json_loads strip lower pq_fuel self)
             (line :: rest) w in
  let next := while_true fuel
                (chat_loop_body json_loads strip lower pq_fuel self)
                rest w in
  res o = res next /\ locals o = locals next /\ world o = world next
  /\ events o = EvPrint OutPrompt :: events next.
Proof.
  intros Hlower Hblank. cbv zeta. rewrite while_true_unfold. cbv zeta.
  rewrite chat_loop_body_unfold. unfold is_quit. rewrite Hblank, Hlower.
  cbn. repeat split.
Qed.

(** X8.  At the end of standard input the session does not end: each pass
    prompts, reports the [EOFError] of [input] and starts again, for as long
    as the loop is run. *)
Theorem end_of_input_is_reported_forever
  (self : MCPClient World) fuel pq_fuel w :
  chat_loop json_loads strip lower fuel pq_fuel self [] w
  = mkOut OutOfFuel [] w
          (EvPrint OutStarted :: EvPrint OutUsage
           :: concat (repeat [EvPrint OutPrompt;
                              EvPrint (OutError "EOF when reading a line")]
                             fuel)).
Proof.
  rewrite chat_loop_unfold. cbv zeta.
  assert (Hloop : while_true fuel
      (chat_loop_body json_loads strip lower pq_fuel self) [] w
                  = mkOut OutOfFuel [] w
                          (concat (repeat
                                     [EvPrint OutPrompt;
                                      EvPrint (OutError
                                                 "EOF when reading a line")]
                                     fuel))).
  { induction fuel as [|fuel IH]; [reflexivity|].
    rewrite while_true_unfold. cbv zeta. rewrite chat_loop_body_unfold.
    cbn [res locals world events]. rewrite IH. reflexivity. }
  rewrite Hloop. reflexivity.
Qed.

(** The loop of the front end is left by [break] alone, at the first line
    that says [quit]. *)
Lemma front_end_returns_at_quit pq_fuel self fuel :
  forall stdin w r,
    let o := while_true fuel
        (chat_loop_body json_loads strip lower pq_fuel self) stdin w in
    res o = Ok r ->
    r = None
    /\ exists before line,
        stdin = before ++ line :: locals o
        /\ is_quit strip lower line = true
        /\ Forall (fun l => is_quit strip lower l = false) before.
Proof.
  induction fuel as [|fuel IH]; intros stdin w r; cbv zeta.
  - discriminate.
  - rewrite while_true_unfold. cbv zeta. rewrite chat_loop_body_unfold.
    destruct stdin as [|line rest].
    + cbn [res locals world]. intros Hres.
      destruct (IH [] w r Hres) as (_ & before & line & Hsplit & _).
      now destruct before.
    + destruct (is_quit strip lower line) eqn:Hquit.
      { cbn [res locals]. intros [= <-]. split; [reflexivity|].
        exists [], line. split; [reflexivity|]. split; [exact Hquit|].
        constructor. }
      assert (Hnext : forall w',
                 res (while_true fuel
                     (chat_loop_body json_loads strip lower pq_fuel self) rest w') = Ok r ->
                 r = None
                 /\ exists before line0,
                     line :: rest
                     = before ++ line0
                       :: locals (while_true fuel
                           (chat_loop_body json_loads strip lower pq_fuel self)
                                    rest w')
                     /\ is_quit strip lower line0 = true
                     /\ Forall (fun l => is_quit strip lower l = false) before).
      { intros w' Hres.
        destruct (IH rest w' r Hres) as (Hr & before & line0 & Hsplit & Hq & Hb).
        split; [exact Hr|]. exists (line :: before), line0.
        split; [cbn; now rewrite <- Hsplit|]. split; [exact Hq|].
        now constructor. }
      destruct (String.eqb (strip line) ""); [cbn [res locals world]; apply Hnext|].
      cbv zeta.
      destruct (res (run_query json_loads pq_fuel self (strip line) w))
        as [[text|]|e|]; cbn [res locals world]; try apply Hnext;
        try discriminate.
      destruct (exn_is_Exception e); cbn [res locals world];
        [apply Hnext|discriminate].
Qed.

(** X9.  [chat_loop] returns only by a [quit] line: when it returns, standard
    input held a line that is [quit] once stripped and lowered, no line
    before it was one, and the lines after it are what is left unread. *)
Theorem chat_loop_returns_only_at_quit
  (self : MCPClient World) fuel pq_fuel stdin w :
  let o := chat_loop json_loads strip lower fuel pq_fuel self stdin w in
  res o = Ok tt ->
  exists before line,
    stdin = before ++ line :: locals o
    /\ is_quit strip lower line = true
    /\ Forall (fun l => is_quit strip lower l = false) before.
Proof.
  cbv zeta. rewrite chat_loop_unfold. cbv zeta. cbn [res locals].
  destruct (res (while_true fuel
      (chat_loop_body json_loads strip lower pq_fuel self) stdin w))
    as [r| |] eqn:Hres; try discriminate.
  intros _.
  now destruct (front_end_returns_at_quit pq_fuel self fuel stdin w r Hres)
    as (_ & H).
Qed.

(** X10.  The answer to a query is printed, and the session goes on with
    the next line from the world the query left. *)
Theorem answer_is_printed
  (self : MCPClient World) fuel pq_fuel line rest w text :
  is_quit strip lower line = false ->
  String.eqb (strip line) "" = false ->
  let answered := run_query json_loads pq_fuel self (strip line) w in
  res answered = Ok (Some text) ->
  let o := while_true (S fuel)
      (chat_loop_body json_loads strip lower pq_fuel self)
             (line :: rest) w in
  let next := while_true fuel
      (chat_loop_body json_loads strip lower pq_fuel self)
                rest (world answered) in
  res o = res next /\ locals o = locals next /\ world o = world next
  /\ events o
     = EvPrint OutPrompt
       :: events answered ++ EvPrint (OutReply text) :: events next.
Proof.
  intros Hquit Hblank answered Hres. cbv zeta.
  rewrite while_true_unfold. cbv zeta.
  rewrite chat_loop_body_unfold, Hquit, Hblank. cbv zeta.
  fold answered. rewrite Hres. cbn [res locals world events app].
  repeat split. now rewrite <- app_assoc.
Qed.

(** X11.  An answer without content (the [content] of the response is
    [None]) is not printed: joining it to the banner raises [TypeError],
    which the front end reports as the error of that query before it goes on
    with the next line. *)
Theorem answer_without_content_is_an_error
  (self : MCPClient World) fuel pq_fuel line rest w :
  is_quit strip lower line = false ->
  String.eqb (strip line) "" = false ->
  let answered := run_query json_loads pq_fuel self (strip line) w in
  res answered = Ok None ->
  let o := while_true (S fuel)
      (chat_loop_body json_loads strip lower pq_fuel self)
             (line :: rest) w in
  let next := while_true fuel
      (chat_loop_body json_loads strip lower pq_fuel self)
                rest (world answered) in
  res o = res next /\ locals o = locals next /\ world o = world next
  /\ events o
     = EvPrint OutPrompt
       :: events answered
       ++ EvPrint (OutError (exn_str TypeError_concat)) :: events next.
Proof.
  intros Hquit Hblank answered Hres. cbv zeta.
  rewrite while_true_unfold. cbv zeta.
  rewrite chat_loop_body_unfold, Hquit, Hblank. cbv zeta.
  fold answered. rewrite Hres. cbn [res locals world events app].
  repeat split. now rewrite <- app_assoc.
Qed.

(** X12.  An exception that does not derive from [Exception] is not caught:
    it leaves [chat_loop], which prints nothing about it and reads no
    further line. *)
Theorem base_exception_leaves_chat_loop
  (self : MCPClient World) fuel pq_fuel line rest w e :
  is_quit strip lower line = false ->
  String.eqb (strip line) "" = false ->
  let interrupted := run_query json_loads pq_fuel self (strip line) w in
  res interrupted = Raise e ->
  exn_is_Exception e = false ->
  chat_loop json_loads strip lower (S fuel) pq_fuel self (line :: rest) w
  = mkOut (Raise e) rest (world interrupted)
          (EvPrint OutStarted :: EvPrint OutUsage :: EvPrint OutPrompt
           :: events interrupted).
Proof.
  intros Hquit Hblank interrupted Hres Hbase.
  rewrite chat_loop_unfold. cbv zeta.
  rewrite while_true_unfold. cbv zeta.
  rewrite chat_loop_body_unfold, Hquit, Hblank. cbv zeta.
  fold interrupted. rewrite Hres, Hbase. reflexivity.
Qed.



(** The model calls of a session are those of its queries. *)
Lemma front_end_requests pq_fuel self fuel :
  forall stdin w rq,
    In rq (chat_requests
             (events (while_true fuel
                 (chat_loop_body json_loads strip lower pq_fuel self)
                        stdin w))) ->
    exists line w',
      In line stdin
      /\ In rq (chat_requests
                  (events (run_query json_loads pq_fuel self (strip line) w'))).
Proof.
  induction fuel as [|fuel IH]; intros stdin w rq.
  - intros [].
  - rewrite while_true_unfold. cbv zeta. rewrite chat_loop_body_unfold.
    assert (Hnext : forall line rest w',
               In rq (chat_requests
                        (events (while_true fuel

                                       (chat_loop_body json_loads strip lower pq_fuel self)
                                   rest w'))) ->
               exists line0 w0,
                 In line0 (line :: rest)
                 /\ In rq (chat_requests
                             (events (run_query json_loads pq_fuel self
                                        (strip line0) w0)))).
    { intros line rest w' Hin.
      destruct (IH rest w' rq Hin) as (line0 & w0 & Hl & Hr).
      exists line0, w0. split; [now right|exact Hr]. }
    destruct stdin as [|line rest].
    + cbn [res locals world events chat_requests app]. intros Hin.
      destruct (IH [] w rq Hin) as (line & _ & [] & _).
    + destruct (is_quit strip lower line); [intros []|].
      destruct (String.eqb (strip line) "").
      { cbn [res locals world events chat_requests app]. apply Hnext. }
      cbv zeta.
      assert (Hhere : In rq (chat_requests
                               (events (run_query json_loads pq_fuel self
                                          (strip line) w))) ->
                      exists line0 w0,
                        In line0 (line :: rest)
                        /\ In rq (chat_requests
                                    (events (run_query json_loads pq_fuel self
                                               (strip line0) w0))))
        by (intros Hin; exists line, w; split; [now left|exact Hin]).
      destruct (res (run_query json_loads pq_fuel self (strip line) w))
        as [[text|]|e|]; cbn [res locals world events chat_requests];
        try destruct (exn_is_Exception e);
        cbn [res locals world events chat_requests];
        repeat (rewrite chat_requests_app || cbn [chat_requests]);
        rewrite ?app_nil_r; intros Hin;
        try (now apply Hhere);
        (apply in_app_or in Hin; destruct Hin as [Hin|Hin];
         [now apply Hhere|eapply Hnext; exact Hin]).
Qed.

Lemma chat_loop_requests self fuel pq_fuel stdin w :
  Forall (fun rq =>
            rq_model rq = azure_deployment_name self
            /\ exists line,
                In line stdin
                /\ well_formed_conversation (strip line) (rq_messages rq))
         (chat_requests
            (events (chat_loop json_loads strip lower
                  fuel pq_fuel self stdin w))).
Proof.
  rewrite chat_loop_unfold. cbv zeta. cbn [events chat_requests].
  apply Forall_forall. intros rq Hin.
  destruct (front_end_requests pq_fuel self fuel stdin w rq Hin)
    as (line & w' & Hline & Hrq).
  pose proof (run_query_well_formed World json_loads self pq_fuel
                (strip line) w') as [Hshape _].
  cbv zeta in Hshape. rewrite Forall_forall in Hshape.
  split; [|exists line; split; [exact Hline|now apply Hshape]].
  revert Hrq. rewrite run_query_unfold.
  destruct (session self) as [s|]; [|intros []].
  destruct (list_tools s w') as [[e|r] w1]; [intros []|].
  cbv zeta. cbn [events chat_requests]. intros Hrq.
  pose proof (tool_loop_requests World json_loads pq_fuel self
                (map openai_tool (lt_tools r)) [UserMsg (strip line)] w1)
    as (Hfix & _).
  cbv zeta in Hfix. rewrite Forall_forall in Hfix.
  now destruct (Hfix rq Hrq) as (Hmodel & _).
Qed.

(** X14.  The front end keeps no history between queries: every request a
    session sends to the model starts with the user turn of one line of
    standard input, stripped, followed by complete rounds of that query
    alone, and names the deployment of the client. *)
Theorem queries_share_no_history
  (self : MCPClient World) fuel pq_fuel stdin w :
  Forall (fun rq =>
            rq_model rq = azure_deployment_name self
            /\ exists line,
                In line stdin
                /\ well_formed_conversation (strip line) (rq_messages rq))
         (chat_requests
            (events (chat_loop json_loads strip lower
                  fuel pq_fuel self stdin w))).
Proof. apply chat_loop_requests. Qed.

End FrontEndFacts.

(** * Properties of construction, connection and shutdown *)

Section BootFacts.

Variable World : Type.
Variable Transport : Type.
Variable json_loads : string -> PyExn + Json.
Variable strip : string -> string.
Variable lower : string -> string.

Implicit Types (rt : Runtime World Transport) (w : World).
Implicit Types (self : ClientObj World Transport).
Implicit Types (t : list (BootEvent Transport)).

Lemma contexts_entered_app t1 t2 :
  contexts_entered (t1 ++ t2) = contexts_entered t2 ++ contexts_entered t1.
Proof.
  induction t1 as [|ev t1 IH]; cbn [app contexts_entered].
  - now rewrite app_nil_r.
  - now rewrite IH, app_assoc.
Qed.

Lemma chat_events_app t1 t2 :
  chat_events (t1 ++ t2) = chat_events t1 ++ chat_events t2.
Proof.
  induction t1 as [|ev t1 IH]; cbn [app chat_events]; [reflexivity|].
  destruct ev; cbn [app]; now rewrite IH.
Qed.

Lemma closed_stacks_app t1 t2 :
  closed_stacks (t1 ++ t2) = closed_stacks t1 ++ closed_stacks t2.
Proof.
  induction t1 as [|ev t1 IH]; cbn [app closed_stacks]; [reflexivity|].
  destruct ev; cbn [app]; now rewrite IH.
Qed.

(** The events of the chat loop open and close nothing. *)
Lemma chat_log_opens_nothing (t : list Event) :
  contexts_entered (map (@BvChat Transport) t) = []
  /\ closed_stacks (map (@BvChat Transport) t) = []
  /\ chat_events (map (@BvChat Transport) t) = t.
Proof.
  induction t as [|ev t (IH1 & IH2 & IH3)]; cbn; [repeat split|].
  rewrite IH1, IH2, IH3. repeat split.
Qed.

(** Unfolding of the bootstrap monad. *)
Ltac boot_unfold :=
  unfold connect_to_server, get_server_config, get_session,
    enter_async_context, load_server_config, boot_bind, boot_self_get,
    boot_assign, boot_lift, boot_extern, boot_raise, boot_ret, boot_emit;
  cbn [boot_res boot_self boot_world boot_log app server_config
       set_server_config set_session set_stdio_write set_exit_stack
       co_client exit_stack stdio_write session].

(** Case analysis on every call and test of [connect_to_server]. *)
Ltac boot_step :=
  match goal with
  | |- context [match server_config ?s with _ => _ end] =>
      destruct (server_config s) eqn:?
  | |- context [json_truthy ?c] =>
      lazymatch c with
      | github_config _ => fail
      | _ => destruct (json_truthy c) eqn:?
      end
  | |- context [match dict_get ?d ?k ?v with _ => _ end] =>
      destruct (dict_get d k v) eqn:?
  | |- context [match StdioServerParameters_check ?r ?p with _ => _ end] =>
      destruct (StdioServerParameters_check r p) eqn:?
  | |- context [match stdio_client ?r ?p ?w with _ => _ end] =>
      destruct (stdio_client r p w) as [[?|?] ?] eqn:?
  | |- context [match ClientSession_enter ?r ?p ?w with _ => _ end] =>
      destruct (ClientSession_enter r p w) as [[?|?] ?] eqn:?
  | |- context [match session_initialize ?r ?p ?w with _ => _ end] =>
      destruct (session_initialize r p w) as [[?|?] ?] eqn:?
  | |- context [match list_tools ?p ?w with _ => _ end] =>
      destruct (list_tools p w) as [[?|?] ?] eqn:?
  end.

Ltac boot_cases := repeat (cbn; boot_step); cbn.

(** Everything [connect_to_server] can do, by what its log holds. *)
Lemma connect_to_server_cases rt server_name self w :
  let o := connect_to_server rt server_name self w in
  exit_stack (boot_self o) = contexts_entered (boot_log o) ++ exit_stack self
  /\ azure_deployment_name (co_client (boot_self o))
     = azure_deployment_name (co_client self)
  /\ openai_client (co_client (boot_self o)) = openai_client (co_client self)
  /\ chat_events (boot_log o) = []
  /\ closed_stacks (boot_log o) = []
  /\ boot_res o <> OutOfFuel.
Proof.
  cbv zeta. boot_unfold. boot_cases;
    (repeat split; try discriminate; try reflexivity).
Qed.

(** ** [__init__] *)

(** X15.  Without a deployment name in the environment (the variable is
    unset, or set to nothing) the constructor raises [ValueError]; [main]
    then raises it too and has done nothing: no server is started and
    [cleanup] is not run, since no client exists. *)
Theorem main_without_deployment_name rt fuel pq_fuel stdin w :
  env_falsy (getenv rt "AZURE_OPENAI_DEPLOYMENT_NAME") = true ->
  init rt = inl ValueError_deployment
  /\ main json_loads strip lower rt fuel pq_fuel stdin w
     = mkMain (Raise ValueError_deployment) None w [].
Proof.
  intros Henv. unfold main, init. rewrite Henv. split; reflexivity.
Qed.

(** X16.  A client that has just been constructed carries the deployment
    name of the environment, which is not empty, and is not connected: its
    session is [None] and its exit stack is empty, [process_query] raises
    the [AttributeError] of the missing session, and [connect_to_server]
    raises the [AttributeError] of the attribute [server_config], which
    [__init__] does not assign, before it does anything. *)
Theorem fresh_client_is_not_connected rt client :
  init rt = inr client ->
  getenv rt "AZURE_OPENAI_DEPLOYMENT_NAME"
  = Some (azure_deployment_name (co_client client))
  /\ azure_deployment_name (co_client client) <> ""
  /\ session (co_client client) = None
  /\ exit_stack client = []
  /\ (forall fuel query w,
        res (run_query json_loads fuel (co_client client) query w)
        = Raise (AttributeError_None "list_tools"))
  /\ (forall server_name w,
        connect_to_server rt server_name client w
        = mkBoot (Raise (AttributeError_object "MCPClient" "server_config"))
                 client w []).
Proof.
  unfold init.
  destruct (getenv rt "AZURE_OPENAI_DEPLOYMENT_NAME") as [name|] eqn:Hname;
    cbn [env_falsy]; [|discriminate].
  destruct (String.eqb name "") eqn:Hempty; [discriminate|].
  destruct (AsyncAzureOpenAI_new rt _ _ _) as [e|openai]; [discriminate|].
  intros [= <-]. cbn [co_client azure_deployment_name session exit_stack].
  split; [reflexivity|]. split; [now apply String.eqb_neq|].
  split; [reflexivity|]. split; [reflexivity|]. split.
  - intros fuel query w. rewrite run_query_unfold. reflexivity.
  - intros server_name w. reflexivity.
Qed.

(** ** [connect_to_server] *)

(** X17.  With the configuration [load_server_config] assigns, a server name
    other than [github] is refused: [connect_to_server] raises [ValueError]
    with a message that names the server, and has started nothing and
    changed no other attribute of the client. *)
Theorem unknown_server_is_refused rt server_name self w :
  server_name <> "github" ->
  let o := boot_bind (load_server_config rt)
             (fun _ => connect_to_server rt server_name) self w in
  boot_res o
  = Raise (ValueError
             ("No configuration found for server: " ++ server_name)%string)
  /\ boot_log o = [] /\ boot_world o = w
  /\ boot_self o = set_server_config (github_config rt) self.
Proof.
  intros Hname. cbv zeta.
  assert (Heqb : String.eqb "github" server_name = false)
    by (apply String.eqb_neq; congruence).
  boot_unfold.
  do 3 (cbn -[String.eqb]; rewrite ?String.eqb_refl, ?Heqb).
  repeat split.
Qed.


(** X19.  The session is attached to the client before the handshake: when
    [initialize] raises, or the listing of the tools after it, the exception
    leaves [connect_to_server] with [self.session] set and with both
    contexts, transport and session, on the exit stack. *)
Theorem failed_handshake_leaves_session_attached rt server_name self w e :
  let o := connect_to_server rt server_name self w in
  In (BvInitialize (Some e)) (boot_log o)
  \/ In (BvListTools (inl e)) (boot_log o) ->
  boot_res o = Raise e
  /\ session (co_client (boot_self o)) <> None
  /\ exists transport,
      stdio_write (boot_self o) = Some transport
      /\ exit_stack (boot_self o)
         = CtxSession transport :: CtxStdio transport :: exit_stack self.
Proof.
  clear json_loads strip lower. cbv zeta. boot_unfold. boot_cases;
    (intros [Hin|Hin]; cbn in Hin; try (intuition discriminate));
    (repeat match goal with
       | H : _ \/ _ |- _ => destruct H as [H|H]; try discriminate H
       | H : False |- _ => destruct H
       | H : BvInitialize _ = BvInitialize _ |- _ => injection H as <-
       | H : BvListTools _ = BvListTools _ |- _ => injection H as <-
       | H : @eq (BootEvent _) _ _ |- _ => discriminate H
       end);
    (split; [reflexivity|]; split; [discriminate|]; eexists; split;
     reflexivity).
Qed.

Lemma connected_log rt server_name self w :
  let o := connect_to_server rt server_name self w in
  boot_res o = Ok tt ->
  exists server_params transport r,
    boot_log o
    = [BvStdioClient server_params (inr transport);
       BvClientSession transport None;
       BvInitialize None;
       BvListTools (inr r);
       BvPrintConnected (map tool_name (lt_tools r))]
    /\ stdio_write (boot_self o) = Some transport
    /\ session (co_client (boot_self o)) <> None.
Proof.
  cbv zeta. boot_unfold. boot_cases; try discriminate.
  all: intros _; do 3 eexists; split; [reflexivity|];
    split; [reflexivity|discriminate].
Qed.

(** X20.  [connect_to_server] returns only when the whole connection has
    been made: the server's transport opened, the session entered over it,
    the handshake done and the tools listed, in that order and nothing else;
    the names of the tools are printed in the order of the listing. *)
Theorem connected_means_whole_handshake rt server_name self w :
  let o := connect_to_server rt server_name self w in
  boot_res o = Ok tt ->
  exists server_params transport r,
    boot_log o
    = [BvStdioClient server_params (inr transport);
       BvClientSession transport None;
       BvInitialize None;
       BvListTools (inr r);
       BvPrintConnected (map tool_name (lt_tools r))]
    /\ stdio_write (boot_self o) = Some transport
    /\ session (co_client (boot_self o)) <> None.
Proof. apply connected_log. Qed.

(** X21.  The server of [main] is started by [npx] on the GitHub server
    package, with the GitHub token of the environment as its whole
    environment ([None] when the variable is unset). *)
Theorem github_server_launch_parameters
  rt self w server_params outcome :
  let o := boot_bind (load_server_config rt)
             (fun _ => connect_to_server rt "github") self w in
  In (BvStdioClient server_params outcome) (boot_log o) ->
  server_params
  = mkServerParams
      (JStr "npx")
      (JArr [JStr "-y"; JStr "@modelcontextprotocol/server-github"])
      (JObj [("GITHUB_PERSONAL_ACCESS_TOKEN",
              json_of_env (getenv rt "GITHUB_PERSONAL_ACCESS_TOKEN"))]).
Proof.
  cbv zeta. boot_unfold. boot_cases;
    intros Hin; cbn in Hin;
    repeat match goal with
      | H : _ \/ _ |- _ => destruct H as [H|H]
      | H : False |- _ => destruct H
      | H : BvStdioClient _ _ = BvStdioClient _ _ |- _ =>
          injection H as <- _
      | H : @eq (BootEvent _) _ _ |- _ => discriminate H
      end; reflexivity.
Qed.

(** ** [main] *)

(** The [try] block and its [finally], by how the connection and the chat
    loop end. *)
Lemma main_body_unfold rt fuel pq_fuel stdin self w :
  main_body json_loads strip lower rt fuel pq_fuel stdin self w =
  let c := connect_to_server rt "github"
             (set_server_config (github_config rt) self) w in
  let finish (r : Res unit) (w1 : World) t :=
    let stack := exit_stack (boot_self c) in
    match exit_stack_aclose rt stack w1 with
    | (inr _, w') =>
        mkBoot r (set_exit_stack [] (boot_self c)) w'
               (t ++ [BvAclose stack None])
    | (inl e, w') =>
        mkBoot (Raise e) (set_exit_stack [] (boot_self c)) w'
               (t ++ [BvAclose stack (Some e)])
    end in
  match boot_res c with
  | Ok _ =>
      let l := chat_loop json_loads strip lower
            fuel pq_fuel (co_client (boot_self c))
                 stdin (boot_world c) in
      match res l with
      | OutOfFuel =>
          mkBoot OutOfFuel (boot_self c) (world l)
                 (boot_log c ++ map BvChat (events l))
      | r => finish r (world l) (boot_log c ++ map BvChat (events l))
      end
  | Raise e => finish (Raise e) (boot_world c) (boot_log c)
  | OutOfFuel => mkBoot OutOfFuel (boot_self c) (boot_world c) (boot_log c)
  end.
Proof.
  unfold main_body, try_finally, cleanup, run_chat_loop, load_server_config.
  unfold boot_bind at 1. unfold boot_assign at 1. unfold boot_bind at 1.
  cbv zeta.
  destruct (connect_to_server rt "github"
              (set_server_config (github_config rt) self) w)
    as [r self1 w1 t1].
  cbn [boot_res boot_self boot_world boot_log app].
  destruct r as [[]|e|].
  - destruct (chat_loop json_loads strip lower
        fuel pq_fuel (co_client self1) stdin w1)
      as [r l' w2 t2].
    cbn [res locals world events].
    destruct r as [[]|e|]; cbn [boot_res boot_self boot_world boot_log app];
      try reflexivity;
      destruct (exit_stack_aclose rt (exit_stack self1) w2) as [[e'|[]] w'];
      reflexivity.
  - destruct (exit_stack_aclose rt (exit_stack self1) w1) as [[e'|[]] w'];
      reflexivity.
  - reflexivity.
Qed.

(** The client [__init__] makes has an empty exit stack. *)
Lemma init_exit_stack rt client : init rt = inr client -> exit_stack client = [].
Proof.
  unfold init. destruct (env_falsy _); [discriminate|].
  destruct (AsyncAzureOpenAI_new rt _ _ _); [discriminate|].
  now intros [= <-].
Qed.

(** X22.  Once the client exists, a run of [main] that ends has called
    [aclose] exactly once, as the last thing it did, on exactly the contexts
    that were entered, whether the connection failed, a query raised or the
    session ended by [quit]; the exit stack is empty afterwards. *)
Theorem main_always_cleans_up rt fuel pq_fuel stdin w client :
  init rt = inr client ->
  let o := main json_loads strip lower rt fuel pq_fuel stdin w in
  main_res o <> OutOfFuel ->
  exists t outcome final,
    main_log o = t ++ [BvAclose (contexts_entered t) outcome]
    /\ closed_stacks t = []
    /\ main_client o = Some final
    /\ exit_stack final = [].
Proof.
  intros Hinit. cbv zeta. unfold main. rewrite Hinit.
  rewrite main_body_unfold. cbv zeta.
  pose proof (connect_to_server_cases rt "github"
                (set_server_config (github_config rt) client) w)
    as (Hstack & _ & _ & _ & Hclosed & _).
  cbv zeta in Hstack, Hclosed.
  cbn [exit_stack set_server_config] in Hstack.
  rewrite (init_exit_stack rt client Hinit), app_nil_r in Hstack.
  destruct (connect_to_server rt "github"
              (set_server_config (github_config rt) client) w)
    as [r self1 w1 t1].
  cbn [boot_res boot_self boot_world boot_log] in *.
  destruct r as [[]|e|].
  - pose proof (chat_log_opens_nothing
                  (events (chat_loop json_loads strip lower fuel pq_fuel
                             (co_client self1) stdin w1)))
      as (Hopen & Hclose & _).
    assert (Hentered :
              contexts_entered
                (t1 ++ map BvChat
                         (events (chat_loop json_loads strip lower fuel pq_fuel
                                    (co_client self1) stdin w1)))
              = exit_stack self1)
      by (rewrite contexts_entered_app, Hopen, Hstack; reflexivity).
    assert (Hnone :
              closed_stacks
                (t1 ++ map BvChat
                         (events (chat_loop json_loads strip lower fuel pq_fuel
                                    (co_client self1) stdin w1))) = [])
      by (rewrite closed_stacks_app, Hclosed, Hclose; reflexivity).
    destruct (res (chat_loop json_loads strip lower
          fuel pq_fuel (co_client self1)
                     stdin w1)) as [[]|e|];
      [| |cbn; intros H; now contradiction H];
      destruct (exit_stack_aclose rt (exit_stack self1) _) as [[e'|[]] w'];
      cbn [main_res main_log main_client]; intros _;
      do 3 eexists; rewrite Hentered;
      (split; [reflexivity|]; split; [exact Hnone|]; split; reflexivity).
  - destruct (exit_stack_aclose rt (exit_stack self1) w1) as [[e'|[]] w'];
      cbn [main_res main_log main_client]; intros _;
      do 3 eexists; rewrite Hstack;
      (split; [reflexivity|]; split; [exact Hclosed|]; split; reflexivity).
  - cbn. intros H. now contradiction H.
Qed.

(** X23.  No line of standard input is read before the connection is whole:
    when the log of [main] holds an event of the chat loop, it starts with
    the opening of the transport, the entering of the session, the handshake,
    the listing of the tools and the printing of their names. *)
Theorem chat_starts_after_connection rt fuel pq_fuel stdin w client :
  init rt = inr client ->
  let o := main json_loads strip lower rt fuel pq_fuel stdin w in
  chat_events (main_log o) <> [] ->
  exists server_params transport r t,
    main_log o
    = [BvStdioClient server_params (inr transport);
       BvClientSession transport None;
       BvInitialize None;
       BvListTools (inr r);
       BvPrintConnected (map tool_name (lt_tools r))] ++ t.
Proof.
  intros Hinit. cbv zeta. unfold main. rewrite Hinit.
  rewrite main_body_unfold. cbv zeta.
  pose proof (connect_to_server_cases rt "github"
                (set_server_config (github_config rt) client) w)
    as (_ & _ & _ & Hchat & _).
  pose proof (connected_log rt "github"
                (set_server_config (github_config rt) client) w) as Hlog.
  cbv zeta in Hchat, Hlog.
  destruct (connect_to_server rt "github"
              (set_server_config (github_config rt) client) w)
    as [r self1 w1 t1].
  cbn [boot_res boot_self boot_world boot_log] in *.
  destruct r as [[]|e|].
  - destruct (Hlog eq_refl) as (server_params & transport & r & -> & _).
    intros _. exists server_params, transport, r.
    destruct (res (chat_loop json_loads strip lower
          fuel pq_fuel (co_client self1)
                     stdin w1)) as [[]|e|];
      try destruct (exit_stack_aclose rt (exit_stack self1) _)
        as [[e'|[]] w'];
      cbn [main_log]; rewrite <- ?app_assoc; eexists; reflexivity.
  - destruct (exit_stack_aclose rt (exit_stack self1) w1) as [[e'|[]] w'];
      cbn [main_log]; rewrite chat_events_app, Hchat; cbn;
      intros H; now contradiction H.
  - cbn [main_log]. rewrite Hchat. intros H. now contradiction H.
Qed.

(** X24.  What [aclose] raises is what [main] raises, whatever the [try]
    block had ended with: the exception of a failed connection or of the chat
    loop is replaced by it. *)
Theorem shutdown_exception_replaces_outcome
  rt fuel pq_fuel stdin w client stack e :
  init rt = inr client ->
  let o := main json_loads strip lower rt fuel pq_fuel stdin w in
  In (BvAclose stack (Some e)) (main_log o) ->
  main_res o = Raise e.
Proof.
  intros Hinit. cbv zeta. unfold main. rewrite Hinit.
  rewrite main_body_unfold. cbv zeta.
  pose proof (connect_to_server_cases rt "github"
                (set_server_config (github_config rt) client) w)
    as (_ & _ & _ & _ & Hclosed & _).
  cbv zeta in Hclosed.
  assert (Hnot : forall t, closed_stacks t = [] ->
                           ~ In (BvAclose stack (Some e)) t).
  { induction t as [|ev t IH]; [intros _ []|].
    destruct ev; cbn; try discriminate;
      intros Ht [Hev|Hin]; try discriminate Hev; now apply IH. }
  destruct (connect_to_server rt "github"
              (set_server_config (github_config rt) client) w)
    as [r self1 w1 t1].
  cbn [boot_res boot_self boot_world boot_log] in *.
  assert (Hlast : forall t outcome,
             closed_stacks t = [] ->
             In (BvAclose stack (Some e))
                (t ++ [BvAclose (exit_stack self1) outcome]) ->
             outcome = Some e).
  { intros t outcome Ht Hin. apply in_app_or in Hin.
    destruct Hin as [Hin|[Hev|[]]]; [now apply Hnot in Hin|].
    now injection Hev as _ ->. }
  destruct r as [[]|e0|].
  - pose proof (chat_log_opens_nothing
                  (events (chat_loop json_loads strip lower fuel pq_fuel
                             (co_client self1) stdin w1)))
      as (_ & Hclose & _).
    assert (Hnone :
              closed_stacks
                (t1 ++ map BvChat
                         (events (chat_loop json_loads strip lower fuel pq_fuel
                                    (co_client self1) stdin w1))) = [])
      by (rewrite closed_stacks_app, Hclosed, Hclose; reflexivity).
    destruct (res (chat_loop json_loads strip lower
          fuel pq_fuel (co_client self1)
                     stdin w1)) as [[]|e1|];
      try destruct (exit_stack_aclose rt (exit_stack self1) _)
        as [[e'|[]] w'];
      cbn [main_res main_log]; intros Hin;
      try (apply (Hlast _ _ Hnone) in Hin; congruence).
    now apply Hnot in Hin.
  - destruct (exit_stack_aclose rt (exit_stack self1) w1) as [[e'|[]] w'];
      cbn [main_res main_log]; intros Hin;
      apply (Hlast _ _ Hclosed) in Hin; congruence.
  - cbn [main_log]. intros Hin. now apply Hnot in Hin.
Qed.

(** X25.  Every request the program sends to the model names the deployment
    read from the environment at construction: connecting to the server
    changes neither the name nor the model client. *)
Theorem requests_name_the_deployment rt fuel pq_fuel stdin w :
  Forall (fun rq =>
            getenv rt "AZURE_OPENAI_DEPLOYMENT_NAME" = Some (rq_model rq))
         (chat_requests
            (chat_events (main_log (main json_loads strip lower rt fuel pq_fuel stdin w)))).
Proof.
  unfold main. destruct (init rt) as [e|client] eqn:Hinit; [constructor|].
  assert (Hname : getenv rt "AZURE_OPENAI_DEPLOYMENT_NAME"
                  = Some (azure_deployment_name (co_client client))).
  { revert Hinit. unfold init.
    destruct (getenv rt "AZURE_OPENAI_DEPLOYMENT_NAME") as [name|];
      [|discriminate].
    destruct (env_falsy (Some name)); [discriminate|].
    destruct (AsyncAzureOpenAI_new rt _ _ _); [discriminate|].
    now intros [= <-]. }
  rewrite main_body_unfold. cbv zeta.
  pose proof (connect_to_server_cases rt "github"
                (set_server_config (github_config rt) client) w)
    as (_ & Hsame & _ & Hchat & _).
  cbv zeta in Hsame, Hchat. cbn [co_client set_server_config] in Hsame.
  destruct (connect_to_server rt "github"
              (set_server_config (github_config rt) client) w)
    as [r self1 w1 t1].
  cbn [boot_res boot_self boot_world boot_log] in *.
  assert (Hloop :
            Forall (fun rq =>
                      getenv rt "AZURE_OPENAI_DEPLOYMENT_NAME"
                      = Some (rq_model rq))
                   (chat_requests
                      (chat_events
                         (t1 ++ map BvChat
                                  (events (chat_loop json_loads strip lower
                                        fuel pq_fuel
                                             (co_client self1) stdin w1)))))).
  { rewrite chat_events_app, Hchat.
    destruct (chat_log_opens_nothing
                (events (chat_loop json_loads strip lower
                      fuel pq_fuel (co_client self1)
                           stdin w1))) as (_ & _ & ->).
    cbn [app].
    pose proof (chat_loop_requests World json_loads strip lower (co_client self1) fuel
                  pq_fuel stdin w1) as Hrq.
    eapply Forall_impl; [|exact Hrq].
    intros rq (-> & _). now rewrite Hsame. }
  assert (Hdone : forall t outcome,
             chat_events (t ++ [BvAclose (exit_stack self1) outcome])
             = chat_events t)
    by (intros t outcome; rewrite chat_events_app; cbn; apply app_nil_r).
  destruct r as [[]|e|].
  - destruct (res (chat_loop json_loads strip lower
        fuel pq_fuel (co_client self1)
                     stdin w1)) as [[]|e|];
      try destruct (exit_stack_aclose rt (exit_stack self1) _)
        as [[e'|[]] w'];
      cbn [main_log]; rewrite ?Hdone; exact Hloop.
  - destruct (exit_stack_aclose rt (exit_stack self1) w1) as [[e'|[]] w'];
      cbn [main_log]; rewrite Hdone, Hchat; constructor.
  - cbn [main_log]. rewrite Hchat. constructor.
Qed.

(** X26.  When connecting to the server fails and the shutdown goes well,
    [main] raises the exception of the connection, after [aclose] has run on
    the contexts entered so far; the chat loop has not been started. *)
Theorem connection_failure_ends_main
  rt fuel pq_fuel stdin w client e w' :
  init rt = inr client ->
  let c := connect_to_server rt "github"
             (set_server_config (github_config rt) client) w in
  boot_res c = Raise e ->
  exit_stack_aclose rt (exit_stack (boot_self c)) (boot_world c)
  = (inr tt, w') ->
  let o := main json_loads strip lower rt fuel pq_fuel stdin w in
  main_res o = Raise e
  /\ main_world o = w'
  /\ main_log o = boot_log c ++ [BvAclose (exit_stack (boot_self c)) None]
  /\ chat_events (main_log o) = [].
Proof.
  intros Hinit c Hres Hclose. cbv zeta. unfold main. rewrite Hinit.
  rewrite main_body_unfold. cbv zeta. fold c.
  pose proof (connect_to_server_cases rt "github"
                (set_server_config (github_config rt) client) w)
    as (_ & _ & _ & Hchat & _).
  cbv zeta in Hchat. fold c in Hchat.
  rewrite Hres, Hclose. cbn [main_res main_world main_log].
  repeat split. rewrite chat_events_app, Hchat. reflexivity.
Qed.

End BootFacts.

(** * Runs of the further properties *)

Lemma model_is_given_the_listed_tools_witness :
  Forall (fun rq =>
            map (fun p => fs_name (tp_function p)) (rq_tools rq)
            = ["list_issues"; "create_issue"])
         (chat_requests
            (events (run_query Demo.json_loads 5 (Demo.client Demo.one_round)
                       "list open issues" 0))).
Proof.
  eapply Forall_impl;
    [|exact (model_is_given_the_listed_tools nat Demo.json_loads
               (Demo.client Demo.one_round) 5 "list open issues" 0
               Demo.server (mkListTools Demo.catalog) 0 eq_refl eq_refl)].
  intros rq (Hnames & _). exact Hnames.
Defined.

Lemma listing_failure_stops_the_query_witness :
  let o := run_query Demo.json_loads 5 (DemoBoot.deaf_client Demo.direct)
             "hi" 0 in
  res o = Raise DemoBoot.McpTimeout /\ locals o = [UserMsg "hi"]
  /\ world o = 0
  /\ chat_requests (events o) = [] /\ tool_invocations (events o) = [].
Proof.
  exact (listing_failure_stops_the_query nat Demo.json_loads
           (DemoBoot.deaf_client Demo.direct) 5 "hi" 0 DemoBoot.deaf_server
           DemoBoot.McpTimeout 0 eq_refl eq_refl).
Defined.

Lemma empty_choices_raise_IndexError_witness :
  let o := tool_loop Demo.json_loads 3 (Demo.client DemoBoot.no_choices)
             Demo.available_tools [UserMsg "hi"] 0 in
  res o = Raise IndexError_range /\ locals o = [UserMsg "hi"] /\ world o = 1
  /\ tool_invocations (events o) = []
  /\ length (chat_requests (events o)) = 1.
Proof.
  exact (empty_choices_raise_IndexError nat Demo.json_loads
           (Demo.client DemoBoot.no_choices) 2 Demo.available_tools
           [UserMsg "hi"] 0 (mkCompletion []) 1 eq_refl eq_refl).
Defined.

Lemma requests_hold_complete_rounds_witness :
  let o := run_query Demo.json_loads 5 (Demo.client Demo.one_round)
             "list open issues" 0 in
  res o = Ok (Some "There are 3 open issues.")
  /\ well_formed_conversation "list open issues" (locals o).
Proof.
  cbv zeta. split; [reflexivity|].
  exact (proj2 (requests_hold_complete_rounds nat Demo.json_loads
                  (Demo.client Demo.one_round) 5 "list open issues" 0)
           (Some "There are 3 open issues.") eq_refl).
Defined.

Lemma nothing_follows_a_failure_witness :
  let o := run_query Demo.json_loads 3 (Demo.client Demo.failing_tools)
             "clean up" 0 in
  In (EvCallTool "delete_repo" (JObj [])
                 (inl (Demo.McpError "Unknown tool"))) (events o)
  /\ res o = Raise (Demo.McpError "Unknown tool").
Proof.
  cbv zeta.
  assert (Hin : In (EvCallTool "delete_repo" (JObj [])
                               (inl (Demo.McpError "Unknown tool")))
                   (events (run_query Demo.json_loads 3
                              (Demo.client Demo.failing_tools) "clean up" 0)))
    by (cbn; do 6 right; left; reflexivity).
  split; [exact Hin|].
  exact (proj2 (nothing_follows_a_failure nat Demo.json_loads
                  (Demo.client Demo.failing_tools) 3 "clean up" 0)
           _ _ Hin eq_refl).
Defined.

Lemma quit_ends_the_session_witness :
  chat_loop Demo.json_loads
      AsciiStr.strip AsciiStr.lower 3 5 (Demo.client Demo.direct)
            ["  QuIt "; "never read"] 0
  = mkOut (Ok tt) ["never read"] 0
          [EvPrint OutStarted; EvPrint OutUsage; EvPrint OutPrompt].
Proof.
  exact (quit_ends_the_session nat Demo.json_loads
      AsciiStr.strip AsciiStr.lower (Demo.client Demo.direct)
           2 5 "  QuIt " ["never read"] 0 eq_refl).
Defined.

Lemma blank_line_is_skipped_witness :
  let o := while_true 3 (chat_loop_body Demo.json_loads
      AsciiStr.strip AsciiStr.lower 5
                           (Demo.client Demo.direct))
             ["   "; "quit"] 0 in
  let next := while_true 2 (chat_loop_body Demo.json_loads
      AsciiStr.strip AsciiStr.lower 5
                              (Demo.client Demo.direct))
                ["quit"] 0 in
  res o = res next /\ locals o = locals next /\ world o = world next
  /\ events o = EvPrint OutPrompt :: events next.
Proof.
  exact (blank_line_is_skipped nat Demo.json_loads AsciiStr.strip
           AsciiStr.lower (Demo.client Demo.direct)
           2 5 "   " ["quit"] 0 eq_refl eq_refl).
Defined.

Lemma chat_loop_returns_only_at_quit_witness :
  let o := chat_loop Demo.json_loads
      AsciiStr.strip AsciiStr.lower 5 5 (Demo.client Demo.direct)
             ["hi"; ""; "quit"; "later"] 0 in
  exists before line,
    ["hi"; ""; "quit"; "later"] = before ++ line :: locals o
    /\ is_quit AsciiStr.strip AsciiStr.lower line = true
    /\ Forall (fun l => is_quit AsciiStr.strip AsciiStr.lower l = false) before.
Proof.
  exact (chat_loop_returns_only_at_quit nat Demo.json_loads
      AsciiStr.strip AsciiStr.lower
           (Demo.client Demo.direct) 5 5 ["hi"; ""; "quit"; "later"] 0
           eq_refl).
Defined.

Lemma answer_is_printed_witness :
  let o := while_true 3 (chat_loop_body Demo.json_loads
      AsciiStr.strip AsciiStr.lower 5
                           (Demo.client Demo.direct))
             [" hi"; "quit"] 0 in
  In (EvPrint (OutReply "Hello!")) (events o) /\ res o = Ok None.
Proof.
  cbv zeta. split; [|reflexivity].
  destruct (answer_is_printed nat Demo.json_loads
      AsciiStr.strip AsciiStr.lower (Demo.client Demo.direct)
              2 5 " hi" ["quit"] 0 "Hello!" eq_refl eq_refl eq_refl)
    as (_ & _ & _ & Hevents).
  rewrite Hevents. right. apply in_or_app. right. now left.
Defined.

Lemma answer_without_content_is_an_error_witness :
  let o := while_true 3 (chat_loop_body Demo.json_loads
      AsciiStr.strip AsciiStr.lower 5
                           (Demo.client DemoBoot.silent))
             [" hi"; "quit"] 0 in
  In (EvPrint (OutError (exn_str TypeError_concat))) (events o)
  /\ res o = Ok None.
Proof.
  cbv zeta. split; [|reflexivity].
  destruct (answer_without_content_is_an_error nat Demo.json_loads
      AsciiStr.strip AsciiStr.lower
              (Demo.client DemoBoot.silent) 2 5 " hi" ["quit"] 0
              eq_refl eq_refl eq_refl)
    as (_ & _ & _ & Hevents).
  rewrite Hevents. right. apply in_or_app. right. now left.
Defined.

Lemma base_exception_leaves_chat_loop_witness :
  let o := chat_loop Demo.json_loads
      AsciiStr.strip AsciiStr.lower 3 5 (Demo.client DemoBoot.cancelled)
             ["hi"; "quit"] 0 in
  res o = Raise DemoBoot.CancelledError /\ locals o = ["quit"].
Proof.
  cbv zeta.
  rewrite (base_exception_leaves_chat_loop nat Demo.json_loads
      AsciiStr.strip AsciiStr.lower
             (Demo.client DemoBoot.cancelled) 2 5 "hi" ["quit"] 0
             DemoBoot.CancelledError eq_refl eq_refl eq_refl eq_refl).
  split; reflexivity.
Defined.


Lemma main_without_deployment_name_witness :
  let rt := DemoBoot.runtime DemoBoot.env_without_deployment Demo.direct
              (inr tt) (inr tt) in
  main Demo.json_loads AsciiStr.strip AsciiStr.lower rt 5 5 ["hi"; "quit"] 0
  = mkMain (Raise ValueError_deployment) None 0 [].
Proof.
  exact (proj2 (main_without_deployment_name nat nat Demo.json_loads
      AsciiStr.strip AsciiStr.lower
                  (DemoBoot.runtime DemoBoot.env_without_deployment
                     Demo.direct (inr tt) (inr tt))
                  5 5 ["hi"; "quit"] 0 eq_refl)).
Defined.

Lemma fresh_client_is_not_connected_witness :
  let rt := DemoBoot.runtime DemoBoot.env Demo.direct (inr tt) (inr tt) in
  init rt = inr (DemoBoot.fresh Demo.direct)
  /\ res (run_query Demo.json_loads 3
            (co_client (DemoBoot.fresh Demo.direct)) "hi" 0)
     = Raise (AttributeError_None "list_tools")
  /\ boot_res (connect_to_server rt "github" (DemoBoot.fresh Demo.direct) 0)
     = Raise (AttributeError_object "MCPClient" "server_config").
Proof.
  cbv zeta. split; [reflexivity|].
  destruct (fresh_client_is_not_connected nat nat Demo.json_loads
              (DemoBoot.runtime DemoBoot.env Demo.direct (inr tt) (inr tt))
              (DemoBoot.fresh Demo.direct) eq_refl)
    as (_ & _ & _ & _ & Hquery & Hconnect).
  split; [apply Hquery|]. now rewrite Hconnect.
Defined.

Lemma unknown_server_is_refused_witness :
  let rt := DemoBoot.runtime DemoBoot.env Demo.direct (inr tt) (inr tt) in
  let o := boot_bind (load_server_config rt)
             (fun _ => connect_to_server rt "gitlab")
             (DemoBoot.fresh Demo.direct) 0 in
  boot_res o
  = Raise (ValueError "No configuration found for server: gitlab")
  /\ boot_log o = [].
Proof.
  cbv zeta.
  destruct (unknown_server_is_refused nat nat
              (DemoBoot.runtime DemoBoot.env Demo.direct (inr tt) (inr tt))
              "gitlab" (DemoBoot.fresh Demo.direct) 0)
    as (Hres & Hlog & _); [discriminate|].
  split; [exact Hres|exact Hlog].
Defined.


Lemma failed_handshake_leaves_session_attached_witness :
  let rt := DemoBoot.runtime DemoBoot.env Demo.direct
              (inl DemoBoot.McpTimeout) (inr tt) in
  let o := connect_to_server rt "github"
             (set_server_config (github_config rt)
                (DemoBoot.fresh Demo.direct)) 0 in
  boot_res o = Raise DemoBoot.McpTimeout
  /\ session (co_client (boot_self o)) <> None.
Proof.
  cbv zeta.
  destruct (failed_handshake_leaves_session_attached nat nat
              (DemoBoot.runtime DemoBoot.env Demo.direct
                 (inl DemoBoot.McpTimeout) (inr tt))
              "github"
              (set_server_config
                 (github_config
                    (DemoBoot.runtime DemoBoot.env Demo.direct
                       (inl DemoBoot.McpTimeout) (inr tt)))
                 (DemoBoot.fresh Demo.direct)) 0 DemoBoot.McpTimeout)
    as (Hres & Hsession & _).
  - left. right. right. left. reflexivity.
  - split; [exact Hres|exact Hsession].
Defined.

Lemma connected_means_whole_handshake_witness :
  let rt := DemoBoot.runtime DemoBoot.env Demo.direct (inr tt) (inr tt) in
  let o := connect_to_server rt "github"
             (set_server_config (github_config rt)
                (DemoBoot.fresh Demo.direct)) 0 in
  exists server_params transport r,
    boot_log o
    = [BvStdioClient server_params (inr transport);
       BvClientSession transport None;
       BvInitialize None;
       BvListTools (inr r);
       BvPrintConnected (map tool_name (lt_tools r))]
    /\ stdio_write (boot_self o) = Some transport
    /\ session (co_client (boot_self o)) <> None.
Proof.
  exact (connected_means_whole_handshake nat nat
           (DemoBoot.runtime DemoBoot.env Demo.direct (inr tt) (inr tt))
           "github"
           (set_server_config
              (github_config
                 (DemoBoot.runtime DemoBoot.env Demo.direct (inr tt) (inr tt)))
              (DemoBoot.fresh Demo.direct)) 0 eq_refl).
Defined.

Lemma github_server_launch_parameters_witness :
  let rt := DemoBoot.runtime DemoBoot.env Demo.direct (inr tt) (inr tt) in
  let o := boot_bind (load_server_config rt)
             (fun _ => connect_to_server rt "github")
             (DemoBoot.fresh Demo.direct) 0 in
  exists server_params,
    In (BvStdioClient server_params (inr 7)) (boot_log o)
    /\ sp_env server_params
       = JObj [("GITHUB_PERSONAL_ACCESS_TOKEN", JStr "ghp_x")].
Proof.
  cbv zeta. eexists. split.
  - left. reflexivity.
  - pose proof (github_server_launch_parameters nat nat
                  (DemoBoot.runtime DemoBoot.env Demo.direct (inr tt) (inr tt))
                  (DemoBoot.fresh Demo.direct) 0 _ (inr 7)
                  (or_introl eq_refl)) as Hparams.
    now rewrite Hparams.
Defined.

Lemma main_always_cleans_up_witness :
  let rt := DemoBoot.runtime DemoBoot.env Demo.direct (inr tt) (inr tt) in
  let o := main Demo.json_loads
      AsciiStr.strip AsciiStr.lower rt 5 5 ["hi"; "quit"] 0 in
  exists t outcome final,
    main_log o = t ++ [BvAclose (contexts_entered t) outcome]
    /\ closed_stacks t = []
    /\ main_client o = Some final
    /\ exit_stack final = [].
Proof.
  refine (main_always_cleans_up nat nat Demo.json_loads
      AsciiStr.strip AsciiStr.lower
            (DemoBoot.runtime DemoBoot.env Demo.direct (inr tt) (inr tt))
            5 5 ["hi"; "quit"] 0 (DemoBoot.fresh Demo.direct) eq_refl _).
  discriminate.
Defined.

Lemma chat_starts_after_connection_witness :
  let rt := DemoBoot.runtime DemoBoot.env Demo.direct (inr tt) (inr tt) in
  let o := main Demo.json_loads
      AsciiStr.strip AsciiStr.lower rt 5 5 ["hi"; "quit"] 0 in
  exists server_params transport r t,
    main_log o
    = [BvStdioClient server_params (inr transport);
       BvClientSession transport None;
       BvInitialize None;
       BvListTools (inr r);
       BvPrintConnected (map tool_name (lt_tools r))] ++ t.
Proof.
  refine (chat_starts_after_connection nat nat Demo.json_loads
      AsciiStr.strip AsciiStr.lower
            (DemoBoot.runtime DemoBoot.env Demo.direct (inr tt) (inr tt))
            5 5 ["hi"; "quit"] 0 (DemoBoot.fresh Demo.direct) eq_refl _).
  discriminate.
Defined.

Lemma shutdown_exception_replaces_outcome_witness :
  let rt := DemoBoot.runtime DemoBoot.env Demo.direct
              (inl DemoBoot.McpTimeout) (inl DemoBoot.BrokenPipe) in
  main_res (main Demo.json_loads
      AsciiStr.strip AsciiStr.lower rt 5 5 ["hi"; "quit"] 0)
  = Raise DemoBoot.BrokenPipe.
Proof.
  refine (shutdown_exception_replaces_outcome nat nat Demo.json_loads
      AsciiStr.strip AsciiStr.lower
            (DemoBoot.runtime DemoBoot.env Demo.direct
               (inl DemoBoot.McpTimeout) (inl DemoBoot.BrokenPipe))
            5 5 ["hi"; "quit"] 0 (DemoBoot.fresh Demo.direct)
            [CtxSession 7; CtxStdio 7] DemoBoot.BrokenPipe eq_refl _).
  do 3 right. left. reflexivity.
Defined.

Lemma connection_failure_ends_main_witness :
  let rt := DemoBoot.runtime DemoBoot.env Demo.direct
              (inl DemoBoot.McpTimeout) (inr tt) in
  let o := main Demo.json_loads
      AsciiStr.strip AsciiStr.lower rt 5 5 ["hi"; "quit"] 0 in
  main_res o = Raise DemoBoot.McpTimeout
  /\ chat_events (main_log o) = []
  /\ closed_stacks (main_log o) = [[CtxSession 7; CtxStdio 7]].
Proof.
  cbv zeta.
  destruct (connection_failure_ends_main nat nat Demo.json_loads
      AsciiStr.strip AsciiStr.lower
              (DemoBoot.runtime DemoBoot.env Demo.direct
                 (inl DemoBoot.McpTimeout) (inr tt))
              5 5 ["hi"; "quit"] 0 (DemoBoot.fresh Demo.direct)
              DemoBoot.McpTimeout 0 eq_refl eq_refl eq_refl)
    as (Hres & _ & Hlog & Hchat).
  split; [exact Hres|]. split; [exact Hchat|].
  rewrite Hlog. reflexivity.
Defined.
